(** * Sequential demo runner of [claudeCodeDemo.py] and [simpleClaudeDemo.py]

    A shallow embedding of the two scripts.  Python code that prints, talks to
    the outside world and raises is written in a small monad: a computation
    takes the state of the outside world and gives back either a value or the
    exception it raised, the new state of the world, and the texts it handed
    to [print], oldest first. *)

From Stdlib Require Import String Ascii List Bool Arith Lia ZArith DecimalString.
Import ListNotations.
Local Open Scope list_scope.
Local Open Scope string_scope.

(** ** Texts *)

(** The Python escape [\n]. *)
Definition nl : string := String (ascii_of_nat 10) EmptyString.

(** [s * n] on a Python string. *)
Fixpoint str_mul (s : string) (n : nat) : string :=
  match n with
  | O => EmptyString
  | S n' => s ++ str_mul s n'
  end.

(** [str(n)] for a non-negative [int], as an f-string writes it. *)
Definition str_of_nat (n : nat) : string :=
  NilZero.string_of_uint (Nat.to_uint n).

(** [s.startswith(p)] *)
Fixpoint startswith (s p : string) {struct p} : bool :=
  match p with
  | EmptyString => true
  | String a p' =>
      match s with
      | EmptyString => false
      | String b s' => Ascii.eqb a b && startswith s' p'
      end
  end.

(** [x in s] on texts: [x] occurs in [s]. *)
Fixpoint contains (x s : string) : bool :=
  startswith s x ||
  match s with
  | EmptyString => false
  | String _ s' => contains x s'
  end.

(** ** Exceptions *)

(** An exception object: the name of its class ([type(e).__name__]), the names
    of the classes it inherits from, and [str(e)]. *)
Record exn : Type := mkExn {
  exn_type : string;
  exn_bases : list string;
  exn_str : string
}.

(** [isinstance(e, cls)], which is what an [except cls] clause tests. *)
Definition isinstance (e : exn) (cls : string) : bool :=
  String.eqb (exn_type e) cls || existsb (String.eqb cls) (exn_bases e).

(** What Ctrl-C raises.  It derives from [BaseException] only, so no
    [except Exception] clause catches it. *)
Definition KeyboardInterrupt : exn :=
  mkExn "KeyboardInterrupt" ["BaseException"] EmptyString.

(** An ordinary error of class [cls], a direct subclass of [Exception]. *)
Definition error (cls msg : string) : exn :=
  mkExn cls ["Exception"; "BaseException"] msg.

(** ** The monad *)

Section Py.

Context {W : Type}.

(** The result of running a piece of code: what it returned or raised, the
    world it left, and what it printed. *)
Definition res (A : Type) : Type := (A + exn) * W * list string.

Definition M (A : Type) : Type := W -> res A.

Definition ret {A} (a : A) : M A := fun w => (inl a, w, []).

Definition raise {A} (e : exn) : M A := fun w => (inr e, w, []).

Definition bind {A B} (m : M A) (f : A -> M B) : M B :=
  fun w =>
    match m w with
    | (inl a, w1, o1) =>
        match f a w1 with
        | (r, w2, o2) => (r, w2, (o1 ++ o2)%list)
        end
    | (inr e, w1, o1) => (inr e, w1, o1)
    end.

(** [print(s)]: one call, one entry. *)
Definition print (s : string) : M unit := fun w => (inl tt, w, [s]).

(** The first [except] clause whose class the exception is an instance of. *)
Fixpoint find_clause {A} (e : exn) (clauses : list (string * (exn -> M A)))
  : option (exn -> M A) :=
  match clauses with
  | [] => None
  | (cls, handler) :: rest =>
      if isinstance e cls then Some handler else find_clause e rest
  end.

(** [try: body / except cls1 as e: handler1 e / except cls2 as e: ...].  An
    exception that no clause matches goes through; so does one raised by a
    handler. *)
Definition try_except {A} (body : M A)
    (clauses : list (string * (exn -> M A))) : M A :=
  fun w =>
    match body w with
    | (inl a, w1, o1) => (inl a, w1, o1)
    | (inr e, w1, o1) =>
        match find_clause e clauses with
        | Some handler =>
            match handler e w1 with
            | (r, w2, o2) => (r, w2, (o1 ++ o2)%list)
            end
        | None => (inr e, w1, o1)
        end
    end.

End Py.

Arguments res : clear implicits.
Arguments M : clear implicits.

Declare Scope py_scope.
Delimit Scope py_scope with py.
Notation "x <- m ;; k" := (bind m (fun x => k))
  (at level 61, m at next level, right associativity) : py_scope.
Notation "m ;; k" := (bind m (fun _ => k))
  (at level 61, right associativity) : py_scope.
Local Open Scope py_scope.

(** ** The runner loop *)

Section Runner.

Context {W : Type}.

(** An entry of the [demos] list: [(name, demo_func)].  Awaiting
    [demo_func()] is running the computation. *)
Definition WorkUnit : Type := string * M W bool.

(** The text of the [print] in the loop's [except Exception as e] clause. *)
Definition failed_line (name : string) (e : exn) : string :=
  "❌ " ++ name ++ " demo failed: " ++ exn_str e.

(** The body of the [for name, demo_func in demos] loop; [successful] is the
    counter on entry, the value is the counter on exit. *)
Definition loop_body (successful : nat) (u : WorkUnit) : M W nat :=
  try_except
    (result <- snd u ;;
     if result : bool then ret (successful + 1) else ret successful)
    [("Exception",
      fun e => print (failed_line (fst u) e) ;; ret successful)].

(** The [for] loop: the body on each entry in turn, left by the first
    exception that escapes the body. *)
Fixpoint for_demos (demos : list WorkUnit) (successful : nat) : M W nat :=
  match demos with
  | [] => ret successful
  | u :: rest =>
      successful' <- loop_body successful u ;;
      for_demos rest successful'
  end.

Definition separator_line : string := nl ++ str_mul "=" 50.

Definition summary_line (successful total : nat) : string :=
  "Completed " ++ str_of_nat successful ++ "/" ++ str_of_nat total
  ++ " demos successfully!".

(** From [successful = 0] to the last [print] of [run_all_demos], for a given
    [demos] list. *)
Definition run_demos (demos : list WorkUnit) : M W unit :=
  successful <- for_demos demos 0 ;;
  print separator_line ;;
  print (summary_line successful (length demos)).

(** The texts of the two [print]s of [main]. *)
Definition interrupted_line : string := nl ++ nl ++ "Demo interrupted by user".

Definition demo_failed_line (e : exn) : string :=
  nl ++ "Demo failed: " ++ exn_str e.

(** [main()], given the coroutine that [asyncio.run] drives to its end.
    [asyncio.run] returns when the coroutine returns and raises what the
    coroutine raises; a Ctrl-C that ends the coroutine comes out of it as
    [KeyboardInterrupt]. *)
Definition main_of (run_all_demos : M W unit) : M W unit :=
  try_except run_all_demos
    [("KeyboardInterrupt", fun _ => print interrupted_line);
     ("Exception", fun e => print (demo_failed_line e))].

End Runner.

(** ** What the scripts call and do not define *)

(** One entry of the [messages] argument: [{"role": ..., "content": ...}]. *)
Record message : Type := mkMessage { role : string; content : string }.

(** The calls that leave the scripts.  Each may change the world, print and
    raise.  A response of the service is given by the texts of its content
    blocks. *)
Class Externals (W : Type) : Type := {
  (** [import anthropic] *)
  import_anthropic : M W unit;
  (** [subprocess.check_call([sys.executable, '-m', 'pip', 'install', 'anthropic'])] *)
  pip_install_anthropic : M W unit;
  (** [load_dotenv(dotenv_path=path)] *)
  load_dotenv : string -> M W unit;
  (** [os.getenv(name)]; [None] is Python's [None] *)
  getenv : string -> M W (option string);
  (** [os.environ[name] = value] *)
  environ_set : string -> string -> M W unit;
  (** [anthropic.AsyncAnthropic()] *)
  client : Type;
  AsyncAnthropic : M W client;
  (** [await client.messages.create(model=..., max_tokens=..., messages=...)] *)
  messages_create : client -> string -> nat -> list message -> M W (list string);
  (** [subprocess.run(['claude', '--version'], ...).returncode] *)
  run_claude_version : M W Z
}.

Section Shared.

Context {W : Type}.

(** [response.content[0].text] *)
Definition content_0_text (response : list string) : M W string :=
  match response with
  | [] => raise (mkExn "IndexError" ["LookupError"; "Exception"; "BaseException"]
                   "list index out of range")
  | t :: _ => ret t
  end.

(** The truth value of [os.getenv]'s result in [if api_key:]. *)
Definition truthy (api_key : option string) : bool :=
  match api_key with
  | None => false
  | Some EmptyString => false
  | Some _ => true
  end.

(** [s[:n]]; an element of a service text stands for one character. *)
Definition slice_to (n : nat) (s : string) : string := substring 0 n s.

Definition model_name : string := "claude-3-5-sonnet-20241022".

End Shared.

(** ** claudeCodeDemo.py *)

Module ClaudeCodeDemo.
Section Script.

Context {W : Type} {X : Externals W}.

Definition install_requirements : M W unit :=
  try_except
    (import_anthropic ;;
     print "✓ Anthropic SDK available")
    [("ImportError",
      fun _ =>
        print "Installing Anthropic SDK..." ;;
        pip_install_anthropic ;;
        print "✓ Anthropic SDK installed")].

Definition setup_api_key : M W bool :=
  load_dotenv ".env" ;;
  api_key <- getenv "ANTHROPIC_API_KEY" ;;
  if truthy api_key then
    environ_set "ANTHROPIC_API_KEY"
      (match api_key with Some k => k | None => EmptyString end) ;;
    print "✓ API key configured from .env file" ;;
    ret true
  else
    print "❌ No API key found in .env file" ;;
    print "Please set ANTHROPIC_API_KEY in ib_invoice_ops/.env" ;;
    ret false.

(** The [try] block has no [return]; the [except] clause returns [False];
    [return True] follows the statement.  [Some b] is a [return b] inside the
    statement, [None] is falling out of it. *)
Definition demo_hello_world : M W bool :=
  print (nl ++ "=== Demo 1: Hello World ===") ;;
  import_anthropic ;;
  returned <- try_except
    (c <- AsyncAnthropic ;;
     response <- messages_create c model_name 1000
       [mkMessage "user" "Say hello and briefly introduce yourself as Claude"] ;;
     text <- content_0_text response ;;
     print ("Claude: " ++ text) ;;
     ret None)
    [("Exception",
      fun e => print ("❌ Error: " ++ exn_str e) ;; ret (Some false))] ;;
  match returned with
  | Some b => ret b
  | None => ret true
  end.

Definition demo_code_generation : M W bool :=
  print (nl ++ "=== Demo 2: Code Generation ===") ;;
  import_anthropic ;;
  try_except
    (c <- AsyncAnthropic ;;
     response <- messages_create c model_name 1000
       [mkMessage "user"
          "Write a Python function to reverse a string with error handling"] ;;
     print "Generated Code:" ;;
     text <- content_0_text response ;;
     print text ;;
     ret true)
    [("Exception",
      fun e => print ("❌ Error: " ++ exn_str e) ;; ret false)].

Definition sample_code : string :=
  nl ++ "def process_data(data):" ++
  nl ++ "    result = []" ++
  nl ++ "    for i in range(len(data)):" ++
  nl ++ "        if data[i] > 0:" ++
  nl ++ "            result.append(data[i] * 2)" ++
  nl ++ "    return result" ++ nl.

Definition demo_code_review : M W bool :=
  print (nl ++ "=== Demo 3: Code Review ===") ;;
  import_anthropic ;;
  try_except
    (c <- AsyncAnthropic ;;
     let prompt :=
       "Review this Python code and suggest improvements:" ++ nl ++ nl
       ++ sample_code in
     response <- messages_create c model_name 1000 [mkMessage "user" prompt] ;;
     print "Code Review:" ;;
     text <- content_0_text response ;;
     print text ;;
     ret true)
    [("Exception",
      fun e => print ("❌ Error: " ++ exn_str e) ;; ret false)].

Definition error_code : string :=
  nl ++ "def divide_numbers(a, b):" ++
  nl ++ "    return a / b" ++
  nl ++
  nl ++ "# This causes an error" ++
  nl ++ "result = divide_numbers(10, 0)" ++
  nl ++ "print(result)" ++ nl.

Definition demo_debugging_help : M W bool :=
  print (nl ++ "=== Demo 4: Debugging Help ===") ;;
  import_anthropic ;;
  try_except
    (c <- AsyncAnthropic ;;
     let prompt :=
       "This code has a bug. Explain the issue and provide a fix:" ++ nl ++ nl
       ++ error_code in
     response <- messages_create c model_name 1000 [mkMessage "user" prompt] ;;
     print "Debugging Help:" ;;
     text <- content_0_text response ;;
     print text ;;
     ret true)
    [("Exception",
      fun e => print ("❌ Error: " ++ exn_str e) ;; ret false)].

(** [t[:300] + "..." if len(t) > 300 else t] *)
Definition shorten_300 (t : string) : string :=
  if (300 <? String.length t)%nat then slice_to 300 t ++ "..." else t.

Definition demo_multi_turn : M W bool :=
  print (nl ++ "=== Demo 5: Multi-turn Conversation ===") ;;
  import_anthropic ;;
  try_except
    (c <- AsyncAnthropic ;;
     response1 <- messages_create c model_name 1000
       [mkMessage "user"
          "Help me design a simple calculator class. Start with the basic structure."] ;;
     print (nl ++ "Turn 1:") ;;
     turn1_content <- content_0_text response1 ;;
     print (shorten_300 turn1_content) ;;
     response2 <- messages_create c model_name 1000
       [mkMessage "user"
          "Help me design a simple calculator class. Start with the basic structure.";
        mkMessage "assistant" turn1_content;
        mkMessage "user" "Now add methods for basic arithmetic operations."] ;;
     print (nl ++ "Turn 2:") ;;
     turn2_content <- content_0_text response2 ;;
     print (shorten_300 turn2_content) ;;
     print (nl ++ "Completed 2 turns") ;;
     ret true)
    [("Exception",
      fun e => print ("❌ Error: " ++ exn_str e) ;; ret false)].

Definition demo_error_handling : M W bool :=
  print (nl ++ "=== Demo 6: Error Handling ===") ;;
  import_anthropic ;;
  try_except
    (c <- AsyncAnthropic ;;
     response <- messages_create c model_name 1000
       [mkMessage "user" "Write a brief guide on Python error handling"] ;;
     print "Success!" ;;
     text <- content_0_text response ;;
     print (slice_to 200 text ++ "...") ;;
     ret true)
    [("Exception",
      fun e =>
        print ("✓ Error handled: " ++ exn_type e ++ ": " ++ exn_str e) ;;
        ret false)].

Definition check_claude_cli : M W bool :=
  try_except
    (returncode <- run_claude_version ;;
     if (returncode =? 0)%Z then
       print "✓ Claude CLI is installed" ;;
       ret true
     else
       print "ℹ️ Claude CLI not found (optional)" ;;
       ret true)
    [("FileNotFoundError",
      fun _ =>
        print "ℹ️ Claude CLI not found (optional)" ;;
        print "Install with: npm install -g @anthropic-ai/claude-code" ;;
        ret true)].

Definition demos : list (@WorkUnit W) :=
  [("Hello World", demo_hello_world);
   ("Code Generation", demo_code_generation);
   ("Code Review", demo_code_review);
   ("Debugging Help", demo_debugging_help);
   ("Multi-turn", demo_multi_turn);
   ("Error Handling", demo_error_handling)].

Definition run_all_demos : M W unit :=
  print "Claude API Demo Starting..." ;;
  print (str_mul "=" 50) ;;
  install_requirements ;;
  ok <- setup_api_key ;;
  if negb ok then ret tt
  else
    check_claude_cli ;;
    run_demos demos.

(** [asyncio.run] hands on what the coroutine returns or raises. *)
Definition main : M W unit := main_of run_all_demos.

End Script.
End ClaudeCodeDemo.

(** ** simpleClaudeDemo.py *)

Module SimpleClaudeDemo.
Section Script.

Context {W : Type} {X : Externals W}.

Definition setup_api_key : M W bool :=
  load_dotenv ".env" ;;
  api_key <- getenv "ANTHROPIC_API_KEY" ;;
  if truthy api_key then
    environ_set "ANTHROPIC_API_KEY"
      (match api_key with Some k => k | None => EmptyString end) ;;
    print "✓ API key configured from .env file" ;;
    ret true
  else
    print "❌ No API key found in .env file" ;;
    print "Please set ANTHROPIC_API_KEY in .env" ;;
    ret false.

Definition demo_hello_world : M W bool :=
  print (nl ++ "=== Demo 1: Hello World ===") ;;
  try_except
    (import_anthropic ;;
     c <- AsyncAnthropic ;;
     response <- messages_create c model_name 1000
       [mkMessage "user" "Say hello and briefly introduce yourself as Claude"] ;;
     text <- content_0_text response ;;
     print ("Claude: " ++ text) ;;
     ret true)
    [("Exception",
      fun e => print ("❌ Error: " ++ exn_str e) ;; ret false)].

Definition demo_code_generation : M W bool :=
  print (nl ++ "=== Demo 2: Code Generation ===") ;;
  try_except
    (import_anthropic ;;
     c <- AsyncAnthropic ;;
     response <- messages_create c model_name 1000
       [mkMessage "user"
          "Write a Python function to reverse a string with error handling"] ;;
     print "Generated Code:" ;;
     text <- content_0_text response ;;
     print text ;;
     ret true)
    [("Exception",
      fun e => print ("❌ Error: " ++ exn_str e) ;; ret false)].

Definition sample_code : string := ClaudeCodeDemo.sample_code.

Definition demo_code_review : M W bool :=
  print (nl ++ "=== Demo 3: Code Review ===") ;;
  try_except
    (import_anthropic ;;
     c <- AsyncAnthropic ;;
     response <- messages_create c model_name 1000
       [mkMessage "user"
          ("Review this Python code and suggest improvements:" ++ nl ++ nl
           ++ sample_code)] ;;
     print "Code Review:" ;;
     text <- content_0_text response ;;
     print text ;;
     ret true)
    [("Exception",
      fun e => print ("❌ Error: " ++ exn_str e) ;; ret false)].

Definition error_code : string := ClaudeCodeDemo.error_code.

Definition demo_debugging_help : M W bool :=
  print (nl ++ "=== Demo 4: Debugging Help ===") ;;
  try_except
    (import_anthropic ;;
     c <- AsyncAnthropic ;;
     response <- messages_create c model_name 1000
       [mkMessage "user"
          ("This code has a bug. Explain the issue and provide a fix:"
           ++ nl ++ nl ++ error_code)] ;;
     print "Debugging Help:" ;;
     text <- content_0_text response ;;
     print text ;;
     ret true)
    [("Exception",
      fun e => print ("❌ Error: " ++ exn_str e) ;; ret false)].

Definition demos : list (@WorkUnit W) :=
  [("Hello World", demo_hello_world);
   ("Code Generation", demo_code_generation);
   ("Code Review", demo_code_review);
   ("Debugging Help", demo_debugging_help)].

(** The [try] statement under [# Install anthropic if needed] in
    [run_all_demos]. *)
Definition install_if_needed : M W unit :=
  try_except
    (import_anthropic ;;
     print "✓ Anthropic SDK available")
    [("ImportError",
      fun _ =>
        print "Installing Anthropic SDK..." ;;
        pip_install_anthropic ;;
        print "✓ Anthropic SDK installed")].

Definition run_all_demos : M W unit :=
  print "Simple Claude API Demo Starting..." ;;
  print (str_mul "=" 50) ;;
  ok <- setup_api_key ;;
  if negb ok then ret tt
  else
    install_if_needed ;;
    run_demos demos.

(** [asyncio.run] hands on what the coroutine returns or raises. *)
Definition main : M W unit := main_of run_all_demos.

End Script.
End SimpleClaudeDemo.

(** ** Reading a run *)

Section Notions.

Context {W : Type}.

(** [r] with [o] printed before it. *)
Definition after_output {A} (o : list string) (r : res W A) : res W A :=
  match r with
  | (v, w, o') => (v, w, (o ++ o')%list)
  end.

(** A computation whose exceptions, if any, are all instances of
    [Exception]: none reaches past an [except Exception]. *)
Definition contained {A} (f : M W A) : Prop :=
  forall w,
    match f w with
    | (inl _, _, _) => True
    | (inr e, _, _) => isinstance e "Exception" = true
    end.

(** The SDK and the service raise nothing but [Exception]s: nobody
    interrupts the run. *)
Definition uninterrupted (X : Externals W) : Prop :=
  contained import_anthropic /\
  contained AsyncAnthropic /\
  forall c model max_tokens messages,
    contained (messages_create c model max_tokens messages).

(** An entry with a call log next to the world: running the operation
    appends the entry's name to the log and does nothing else. *)
Definition logged (u : @WorkUnit W) : @WorkUnit (W * list string) :=
  (fst u,
   fun wl =>
     match snd u (fst wl) with
     | (r, w1, o) => (r, (w1, (snd wl ++ [fst u])%list), o)
     end).

(** An operation that returns [True] whatever the world. *)
Definition succeeds (f : M W bool) : Prop :=
  forall w, exists w1 o1, f w = (inl true, w1, o1).

(** An operation that, whatever the world, returns [False] or raises an
    [Exception]. *)
Definition fails (f : M W bool) : Prop :=
  forall w,
    match f w with
    | (inl b, _, _) => b = false
    | (inr e, _, _) => isinstance e "Exception" = true
    end.

(** A line with the shape of the summary. *)
Definition is_summary (line : string) : bool :=
  startswith line "Completed ".

(** An operation that never prints a line with the shape of the summary. *)
Definition prints_no_summary (f : M W bool) : Prop :=
  forall w, filter is_summary (snd (f w)) = [].

End Notions.

(** ** A scripted world

    A stand-in for the outside world, to run the scripts on: the value of the
    API key variable, whether the SDK can be imported, and the replies the
    service will give to the coming requests, in order. *)

Module Scripted.

Record world : Type := mkWorld {
  api_key : option string;
  sdk : bool;
  replies : list (list string + exn)
}.

Definition ModuleNotFoundError : exn :=
  mkExn "ModuleNotFoundError" ["ImportError"; "Exception"; "BaseException"]
    "No module named 'anthropic'".

Definition import_sdk : M world unit :=
  fun w => if sdk w then ret tt w else raise ModuleNotFoundError w.

Definition pip_install : M world unit :=
  fun w => (inl tt, mkWorld (api_key w) true (replies w), []).

Definition read_env (name : string) : M world (option string) :=
  fun w =>
    if String.eqb name "ANTHROPIC_API_KEY" then ret (api_key w) w
    else ret None w.

Definition write_env (name value : string) : M world unit :=
  fun w =>
    if String.eqb name "ANTHROPIC_API_KEY"
    then (inl tt, mkWorld (Some value) (sdk w) (replies w), [])
    else ret tt w.

(** The next scripted reply; the service cannot be reached once the script
    is used up. *)
Definition create (_ : unit) (_ : string) (_ : nat) (_ : list message)
  : M world (list string) :=
  fun w =>
    match replies w with
    | [] => raise (error "APIConnectionError" "Connection error.") w
    | inl texts :: rest => (inl texts, mkWorld (api_key w) (sdk w) rest, [])
    | inr e :: rest => (inr e, mkWorld (api_key w) (sdk w) rest, [])
    end.

#[global] Instance externals : Externals world := {|
  import_anthropic := import_sdk;
  pip_install_anthropic := pip_install;
  load_dotenv := fun _ => ret tt;
  getenv := read_env;
  environ_set := write_env;
  client := unit;
  AsyncAnthropic := ret tt;
  messages_create := create;
  run_claude_version := ret 1%Z
|}.

End Scripted.

(** The four entries of the scenario: [A] returns [True], [B] raises, [C]
    returns [False], [D] returns [True]. *)
Definition scenario : list (@WorkUnit unit) :=
  [("A", ret true);
   ("B", raise (error "RuntimeError" "boom"));
   ("C", ret false);
   ("D", ret true)].

(** [simpleClaudeDemo.py] with a key, the SDK installed, two replies from the
    service and Ctrl-C during the third request. *)
Definition interrupted_world : Scripted.world :=
  Scripted.mkWorld (Some "sk-test") true
    [inl ["Hi"]; inl ["code"]; inr KeyboardInterrupt; inl ["never sent"]].

(** Either script with the variable unset and a reply waiting. *)
Definition keyless_world : Scripted.world :=
  Scripted.mkWorld None true [inl ["never sent"]].

(** [simpleClaudeDemo.py] with a key and the SDK installed, and a service
    that cannot be reached. *)
Definition unreachable_world : Scripted.world :=
  Scripted.mkWorld (Some "sk-test") true [].

(** [r] with [k] added to the counter it returns. *)
Definition add_to_counter {W} (k : nat) (r : res W nat) : res W nat :=
  match r with
  | (inl k1, w, o) => (inl (k + k1), w, o)
  | (inr e, w, o) => (inr e, w, o)
  end.

(** A computation that returns, whatever the world: it raises nothing. *)
Definition never_raises {W A} (m : M W A) : Prop :=
  forall w, exists a w1 o1, m w = (inl a, w1, o1).

(** ** A machine without the SDK

    A second stand-in, with no state: [import anthropic] fails again and
    again (pip reports success all the same), the key is set, the [claude]
    binary is missing and the service is out of reach. *)

Module Offline.

Definition FileNotFoundError : exn :=
  mkExn "FileNotFoundError" ["OSError"; "Exception"; "BaseException"]
    "[Errno 2] No such file or directory: 'claude'".

#[global] Instance externals : Externals unit := {|
  import_anthropic := raise Scripted.ModuleNotFoundError;
  pip_install_anthropic := ret tt;
  load_dotenv := fun _ => ret tt;
  getenv := fun _ => ret (Some "sk-test");
  environ_set := fun _ _ => ret tt;
  client := unit;
  AsyncAnthropic := ret tt;
  messages_create := fun _ _ _ _ =>
    raise (error "APIConnectionError" "Connection error.");
  run_claude_version := raise FileNotFoundError
|}.

End Offline.

(** A machine without the SDK on which pip fails; no key is set. *)
Definition broken_pip : Externals unit := {|
  import_anthropic := raise Scripted.ModuleNotFoundError;
  pip_install_anthropic :=
    raise (error "CalledProcessError"
             "Command returned non-zero exit status 1.");
  load_dotenv := fun _ => ret tt;
  getenv := fun _ => ret None;
  environ_set := fun _ _ => ret tt;
  client := unit;
  AsyncAnthropic := ret tt;
  messages_create := fun _ _ _ _ => ret [];
  run_claude_version := ret 0%Z
|}.

(** ** Facts about the loop *)

Section Facts.

Context {W : Type}.

Lemma after_output_nil {A} (r : res W A) : after_output [] r = r.
Proof. destruct r as [[v w] o]. reflexivity. Qed.

Lemma after_output_app {A} (o1 o2 : list string) (r : res W A) :
  after_output o1 (after_output o2 r) = after_output (o1 ++ o2) r.
Proof. destruct r as [[v w] o]. simpl. now rewrite app_assoc. Qed.

Lemma bind_after {A B} (m : M W A) (f : A -> M W B) w a w1 o1 :
  m w = (inl a, w1, o1) -> bind m f w = after_output o1 (f a w1).
Proof. intros E. unfold bind. rewrite E. reflexivity. Qed.

Lemma bind_raise {A B} (m : M W A) (f : A -> M W B) w e w1 o1 :
  m w = (inr e, w1, o1) -> bind m f w = (inr e, w1, o1).
Proof. intros E. unfold bind. rewrite E. reflexivity. Qed.

(** One turn of the loop, by what the operation did. *)
Lemma loop_body_eq (k : nat) (u : WorkUnit) (w : W) :
  loop_body k u w =
  match snd u w with
  | (inl true, w1, o1) => (inl (k + 1), w1, o1)
  | (inl false, w1, o1) => (inl k, w1, o1)
  | (inr e, w1, o1) =>
      if isinstance e "Exception"
      then (inl k, w1, (o1 ++ [failed_line (fst u) e])%list)
      else (inr e, w1, o1)
  end.
Proof.
  unfold loop_body, try_except, bind.
  destruct (snd u w) as [[[b | e] w1] o1].
  - destruct b; simpl; now rewrite app_nil_r.
  - simpl. destruct (isinstance e "Exception"); reflexivity.
Qed.

(** The loop over [pre ++ post] is the loop over [pre], then over [post]. *)
Lemma for_demos_app (pre post : list WorkUnit) (k : nat) (w : W) :
  for_demos (pre ++ post) k w =
  match for_demos pre k w with
  | (inl k1, w1, o1) => after_output o1 (for_demos post k1 w1)
  | (inr e, w1, o1) => (inr e, w1, o1)
  end.
Proof.
  revert k w. induction pre as [| u pre IH]; intros k w.
  - simpl. now rewrite after_output_nil.
  - simpl. unfold bind.
    destruct (loop_body k u w) as [[[k1 | e] w1] o1]; [| reflexivity].
    rewrite IH.
    destruct (for_demos pre k1 w1) as [[[k2 | e] w2] o2]; [| reflexivity].
    destruct (for_demos post k2 w2) as [[v w3] o3]. simpl.
    now rewrite app_assoc.
Qed.

(** The counter never goes down and goes up by at most one a turn. *)
Lemma loop_body_counter (k : nat) (u : WorkUnit) (w : W) k1 w1 o1 :
  loop_body k u w = (inl k1, w1, o1) -> k <= k1 <= k + 1.
Proof.
  rewrite loop_body_eq.
  destruct (snd u w) as [[[[|] | e] w2] o2].
  - intros [= <- _ _]. lia.
  - intros [= <- _ _]. lia.
  - destruct (isinstance e "Exception"); [| discriminate].
    intros [= <- _ _]. lia.
Qed.

Lemma for_demos_counter (demos : list WorkUnit) (k : nat) (w : W) k1 w1 o1 :
  for_demos demos k w = (inl k1, w1, o1) -> k <= k1 <= k + length demos.
Proof.
  revert k w k1 w1 o1. induction demos as [| u rest IH]; intros k w k1 w1 o1.
  - simpl. intros [= <- _ _]. lia.
  - simpl. unfold bind.
    destruct (loop_body k u w) as [[[k2 | e] w2] o2] eqn:Eb; [| discriminate].
    destruct (for_demos rest k2 w2) as [[[k3 | e] w3] o3] eqn:Er; [| discriminate].
    intros [= <- _ _].
    apply loop_body_counter in Eb. apply IH in Er. lia.
Qed.

(** With contained operations a turn of the loop always ends normally. *)
Lemma loop_body_contained (k : nat) (u : WorkUnit) (w : W) :
  contained (snd u) ->
  exists k1 w1 o1, loop_body k u w = (inl k1, w1, o1).
Proof.
  intros C. specialize (C w). rewrite loop_body_eq.
  destruct (snd u w) as [[[[|] | e] w2] o2]; eauto.
  rewrite C. eauto.
Qed.

Lemma for_demos_contained (demos : list WorkUnit) (k : nat) (w : W) :
  Forall (fun u => contained (snd u)) demos ->
  exists k1 w1 o1, for_demos demos k w = (inl k1, w1, o1).
Proof.
  intros F. revert k w. induction F as [| u rest C F IH]; intros k w.
  - simpl. unfold ret. eauto.
  - simpl. destruct (loop_body_contained k u w C) as (k1 & w1 & o1 & Eb).
    destruct (IH k1 w1) as (k2 & w2 & o2 & Er).
    rewrite (bind_after _ _ _ _ _ _ Eb), Er. simpl. eauto.
Qed.

(** The run, once the loop is known to have ended. *)
Lemma run_demos_eq (demos : list WorkUnit) (w : W) k w1 o1 :
  for_demos demos 0 w = (inl k, w1, o1) ->
  run_demos demos w =
  (inl tt, w1,
   (o1 ++ [separator_line; summary_line k (length demos)])%list).
Proof.
  intros E. unfold run_demos. rewrite (bind_after _ _ _ _ _ _ E). reflexivity.
Qed.

Lemma run_demos_raise (demos : list WorkUnit) (w : W) e w1 o1 :
  for_demos demos 0 w = (inr e, w1, o1) ->
  run_demos demos w = (inr e, w1, o1).
Proof. intros E. unfold run_demos. now rewrite (bind_raise _ _ _ _ _ _ E). Qed.

End Facts.

(** ** The runner attempts every entry once, in order *)

Section Attempts.

Context {W : Type}.

(** The loop over logged entries does what the loop over the entries does,
    and adds the names of the entries, in order, to the log. *)
Lemma for_demos_logged (demos : list (@WorkUnit W)) (k : nat) (w : W)
    (log : list string) k1 w1 o1 :
  for_demos demos k w = (inl k1, w1, o1) ->
  for_demos (map logged demos) k (w, log) =
  (inl k1, (w1, (log ++ map fst demos)%list), o1).
Proof.
  revert k w log k1 w1 o1.
  induction demos as [| u rest IH]; intros k w log k1 w1 o1.
  - simpl. intros [= <- <- <-]. unfold ret. now rewrite app_nil_r.
  - simpl. unfold bind. rewrite !loop_body_eq. simpl.
    destruct (snd u w) as [[[[|] | e] w2] o2].
    + destruct (for_demos rest (k + 1) w2) as [[[k3 | e] w3] o3] eqn:Er;
        [| discriminate].
      intros [= <- <- <-].
      rewrite (IH _ _ (log ++ [fst u])%list _ _ _ Er).
      now rewrite <- app_assoc.
    + destruct (for_demos rest k w2) as [[[k3 | e] w3] o3] eqn:Er;
        [| discriminate].
      intros [= <- <- <-].
      rewrite (IH _ _ (log ++ [fst u])%list _ _ _ Er).
      now rewrite <- app_assoc.
    + destruct (isinstance e "Exception"); [| discriminate].
      destruct (for_demos rest k w2) as [[[k3 | e'] w3] o3] eqn:Er;
        [| discriminate].
      intros [= <- <- <-].
      rewrite (IH _ _ (log ++ [fst u])%list _ _ _ Er).
      now rewrite <- app_assoc.
Qed.

(** C1.  Whatever the entries of [demos] do short of being interrupted
    (return [True], return [False], raise an [Exception]), the run ends
    normally; with a call log attached to the entries, the log at the end
    holds the names of all entries, each once, in the order of the list, and
    the run is otherwise the run without the log; the total in the summary is
    the length of the list. *)
Theorem run_demos_attempts_each_once_in_order
    (demos : list (@WorkUnit W)) (w : W) :
  Forall (fun u => contained (snd u)) demos ->
  exists k w1 o1,
    run_demos demos w =
      (inl tt, w1,
       (o1 ++ [separator_line; summary_line k (length demos)])%list) /\
    run_demos (map logged demos) (w, []) =
      (inl tt, (w1, map fst demos),
       (o1 ++ [separator_line; summary_line k (length demos)])%list).
Proof.
  intros F.
  destruct (for_demos_contained demos 0 w F) as (k & w1 & o1 & E).
  exists k, w1, o1. split.
  - now apply run_demos_eq.
  - rewrite (run_demos_eq _ _ _ _ _ (for_demos_logged _ _ _ [] _ _ _ E)).
    now rewrite length_map.
Qed.

(** C2.  Take the run at any point between two turns of the loop, [pre]
    being the entries done and [post] those to come, with the counter at [k].
    The counter is 0 before the first turn, [k] is at most the number of
    entries done, the next turn leaves it as it is or adds one, and the loop
    over the whole list is the loop over [post] taken up from [k]; a summary
    that gets printed shows a count that is at most the total. *)
Theorem successful_never_exceeds_attempted
    (pre post : list (@WorkUnit W)) (w : W) k w1 o1 :
  for_demos pre 0 w = (inl k, w1, o1) ->
  for_demos [] 0 w = (inl 0, w, []) /\
  k <= length pre /\
  for_demos (pre ++ post) 0 w = after_output o1 (for_demos post k w1) /\
  (forall u k2 w2 o2,
      loop_body k u w1 = (inl k2, w2, o2) -> k <= k2 <= k + 1) /\
  (forall w3 o3,
      run_demos (pre ++ post) w = (inl tt, w3, o3) ->
      exists k3 o4,
        o3 = (o4 ++ [separator_line;
                     summary_line k3 (length (pre ++ post))])%list /\
        k3 <= length (pre ++ post)).
Proof.
  intros E. repeat split.
  - apply for_demos_counter in E. lia.
  - rewrite for_demos_app, E. reflexivity.
  - match goal with H : loop_body _ _ _ = _ |- _ =>
      apply loop_body_counter in H end. lia.
  - match goal with H : loop_body _ _ _ = _ |- _ =>
      apply loop_body_counter in H end. lia.
  - intros w3 o3 R.
    destruct (for_demos (pre ++ post) 0 w) as [[[k3 | e] w4] o4] eqn:Ef.
    + rewrite (run_demos_eq _ _ _ _ _ Ef) in R.
      injection R as _ <-.
      exists k3, o4. split; [reflexivity |].
      apply for_demos_counter in Ef. lia.
    + rewrite (run_demos_raise _ _ _ _ _ Ef) in R. discriminate.
Qed.

(** C3.  When the loop has reached an entry [(name, f)] with the counter at
    [k] and [f] raises an [Exception], the loop prints the line
    [❌ name demo failed: str(e)] after what [f] printed, leaves the counter
    at [k], and goes on with the loop over the entries that follow; if those
    are contained the run ends normally with its summary. *)
Theorem raised_fault_is_caught_and_run_continues
    (pre post : list (@WorkUnit W)) (name : string) (f : M W bool)
    (w : W) k w1 o1 e w2 o2 :
  for_demos pre 0 w = (inl k, w1, o1) ->
  f w1 = (inr e, w2, o2) ->
  isinstance e "Exception" = true ->
  failed_line name e = "❌ " ++ name ++ " demo failed: " ++ exn_str e /\
  for_demos (pre ++ (name, f) :: post) 0 w =
    after_output (o1 ++ o2 ++ [failed_line name e])
      (for_demos post k w2) /\
  (Forall (fun u => contained (snd u)) post ->
   exists k3 w3 o3,
     for_demos post k w2 = (inl k3, w3, o3) /\
     run_demos (pre ++ (name, f) :: post) w =
       (inl tt, w3,
        (o1 ++ o2 ++ [failed_line name e] ++ o3
         ++ [separator_line;
             summary_line k3 (length (pre ++ (name, f) :: post))])%list)).
Proof.
  intros Epre Ef Ee.
  assert (Eloop :
    for_demos (pre ++ (name, f) :: post) 0 w =
    after_output (o1 ++ o2 ++ [failed_line name e]) (for_demos post k w2)).
  { rewrite for_demos_app, Epre. simpl. unfold bind.
    rewrite loop_body_eq. simpl. rewrite Ef, Ee.
    destruct (for_demos post k w2) as [[v w3] o3]. simpl.
    now rewrite <- !app_assoc. }
  split; [reflexivity |]. split; [exact Eloop |].
  intros F.
  destruct (for_demos_contained post k w2 F) as (k3 & w3 & o3 & Epost).
  exists k3, w3, o3. split; [exact Epost |].
  rewrite Epost in Eloop. simpl in Eloop.
  rewrite (run_demos_eq _ _ _ _ _ Eloop).
  now rewrite <- !app_assoc.
Qed.

(** All operations succeed: the counter goes up by the length of the list. *)
Lemma for_demos_all_succeed (demos : list (@WorkUnit W)) (k : nat) (w : W) :
  Forall (fun u => succeeds (snd u)) demos ->
  exists w1 o1, for_demos demos k w = (inl (k + length demos), w1, o1).
Proof.
  intros F. revert k w. induction F as [| u rest S F IH]; intros k w.
  - simpl. unfold ret. rewrite Nat.add_0_r. eauto.
  - simpl. unfold bind. rewrite loop_body_eq.
    destruct (S w) as (w1 & o1 & ->).
    destruct (IH (k + 1) w1) as (w2 & o2 & ->).
    exists w2, (o1 ++ o2)%list. simpl.
    do 3 f_equal. lia.
Qed.

(** All operations fail: the counter stays where it is. *)
Lemma for_demos_all_fail (demos : list (@WorkUnit W)) (k : nat) (w : W) :
  Forall (fun u => fails (snd u)) demos ->
  exists w1 o1, for_demos demos k w = (inl k, w1, o1).
Proof.
  intros F. revert k w. induction F as [| u rest S F IH]; intros k w.
  - simpl. unfold ret. eauto.
  - simpl. unfold bind. rewrite loop_body_eq.
    specialize (S w).
    destruct (snd u w) as [[[b | e] w1] o1].
    + subst b. destruct (IH k w1) as (w2 & o2 & ->). eauto.
    + rewrite S. destruct (IH k w1) as (w2 & o2 & ->). eauto.
Qed.

(** C4.  When every operation returns [True], the run ends normally and its
    summary shows N out of N; run again, from the world the first run left,
    it ends with the same summary. *)
Theorem all_succeed_reports_N_of_N (demos : list (@WorkUnit W)) (w : W) :
  Forall (fun u => succeeds (snd u)) demos ->
  exists w1 o1 w2 o2,
    run_demos demos w =
      (inl tt, w1,
       (o1 ++ [separator_line;
               summary_line (length demos) (length demos)])%list) /\
    run_demos demos w1 =
      (inl tt, w2,
       (o2 ++ [separator_line;
               summary_line (length demos) (length demos)])%list).
Proof.
  intros F.
  destruct (for_demos_all_succeed demos 0 w F) as (w1 & o1 & E1).
  destruct (for_demos_all_succeed demos 0 w1 F) as (w2 & o2 & E2).
  exists w1, o1, w2, o2.
  split; [exact (run_demos_eq _ _ _ _ _ E1) | exact (run_demos_eq _ _ _ _ _ E2)].
Qed.

(** C5.  When every operation returns [False] or raises an [Exception], the
    run ends normally (it raises nothing) and its summary shows 0 out of
    N. *)
Theorem all_fail_reports_0_of_N (demos : list (@WorkUnit W)) (w : W) :
  Forall (fun u => fails (snd u)) demos ->
  exists w1 o1,
    run_demos demos w =
      (inl tt, w1,
       (o1 ++ [separator_line; summary_line 0 (length demos)])%list).
Proof.
  intros F.
  destruct (for_demos_all_fail demos 0 w F) as (w1 & o1 & E).
  exists w1, o1. exact (run_demos_eq _ _ _ _ _ E).
Qed.

End Attempts.

(** ** The summary *)

Section Summary.

Context {W : Type}.

Lemma is_summary_separator : is_summary separator_line = false.
Proof. reflexivity. Qed.

Lemma is_summary_summary (k n : nat) : is_summary (summary_line k n) = true.
Proof. reflexivity. Qed.

Lemma is_summary_failed (name : string) (e : exn) :
  is_summary (failed_line name e) = false.
Proof. reflexivity. Qed.

(** The lines the loop prints are the operations' own and the failure lines;
    neither has the shape of the summary when the operations print none. *)
Lemma for_demos_prints_no_summary (demos : list (@WorkUnit W)) (k : nat)
    (w : W) :
  Forall (fun u => prints_no_summary (snd u)) demos ->
  filter is_summary (snd (for_demos demos k w)) = [].
Proof.
  intros F. revert k w. induction F as [| u rest Q F IH]; intros k w.
  - reflexivity.
  - simpl. unfold bind. rewrite loop_body_eq.
    specialize (Q w).
    destruct (snd u w) as [[[[|] | e] w1] o1]; simpl in Q.
    + specialize (IH (k + 1) w1).
      destruct (for_demos rest (k + 1) w1) as [[v w2] o2]. simpl in *.
      now rewrite filter_app, Q, IH.
    + specialize (IH k w1).
      destruct (for_demos rest k w1) as [[v w2] o2]. simpl in *.
      now rewrite filter_app, Q, IH.
    + destruct (isinstance e "Exception"); [| exact Q].
      specialize (IH k w1).
      destruct (for_demos rest k w1) as [[v w2] o2]. simpl in *.
      rewrite !filter_app, Q, IH.
      cbn [filter]. now rewrite is_summary_failed.
Qed.

(** C6, as the scripts have it.  When no operation is interrupted the run
    ends normally, and the last two things it prints are the separator and
    the line [Completed X/Y demos successfully!], X being the counter the
    loop ended with and Y the length of the list; when the operations print
    no line of that shape, it is the only such line of the run.  On the
    empty list the line is [Completed 0/0 demos successfully!]. *)
Theorem summary_line_printed_once (demos : list (@WorkUnit W)) (w : W) :
  Forall (fun u => contained (snd u)) demos ->
  run_demos [] w =
    (inl tt, w, [separator_line; "Completed 0/0 demos successfully!"]) /\
  exists k w1 o1,
    for_demos demos 0 w = (inl k, w1, o1) /\
    run_demos demos w =
      (inl tt, w1,
       (o1 ++ [separator_line; summary_line k (length demos)])%list) /\
    summary_line k (length demos) =
      "Completed " ++ str_of_nat k ++ "/" ++ str_of_nat (length demos)
      ++ " demos successfully!" /\
    (Forall (fun u => prints_no_summary (snd u)) demos ->
     filter is_summary (snd (run_demos demos w)) =
       [summary_line k (length demos)]).
Proof.
  intros F. split; [reflexivity |].
  destruct (for_demos_contained demos 0 w F) as (k & w1 & o1 & E).
  exists k, w1, o1.
  split; [exact E |]. split; [exact (run_demos_eq _ _ _ _ _ E) |].
  split; [reflexivity |].
  intros Q. rewrite (run_demos_eq _ _ _ _ _ E). cbn [snd].
  pose proof (for_demos_prints_no_summary demos 0 w Q) as N.
  rewrite E in N. cbn [snd] in N.
  rewrite filter_app, N. cbn [filter app].
  now rewrite is_summary_separator, is_summary_summary.
Qed.

(** C7, as the scripts have it.  With [A] returning [True], [B] raising an
    [Exception], [C] returning [False] and [D] returning [True], each from
    the world its predecessor left: the run goes through A, B, C, D in that
    order, prints [❌ B demo failed: str(e)] after what B printed and nothing
    of its own for C, leaves the counter as it is at both B and C, and ends
    with [Completed 2/4 demos successfully!]. *)
Theorem scenario_reports_2_of_4 (fA fB fC fD : M W bool) (w : W)
    wA oA e wB oB wC oC wD oD :
  fA w = (inl true, wA, oA) ->
  fB wA = (inr e, wB, oB) ->
  isinstance e "Exception" = true ->
  fC wB = (inl false, wC, oC) ->
  fD wC = (inl true, wD, oD) ->
  let demos := [("A", fA); ("B", fB); ("C", fC); ("D", fD)] in
  run_demos demos w =
    (inl tt, wD,
     (oA ++ oB ++ [failed_line "B" e] ++ oC ++ oD
      ++ [separator_line; "Completed 2/4 demos successfully!"])%list) /\
  failed_line "B" e = "❌ B demo failed: " ++ exn_str e /\
  snd (fst (run_demos (map logged demos) (w, []))) = (wD, ["A"; "B"; "C"; "D"]) /\
  (forall k, fst (fst (loop_body k ("B", fB) wA)) = inl k) /\
  (forall k, fst (fst (loop_body k ("C", fC) wB)) = inl k).
Proof.
  intros EA EB Ee EC ED demos.
  assert (E : for_demos demos 0 w =
              (inl 2, wD, (oA ++ oB ++ [failed_line "B" e] ++ oC ++ oD)%list)).
  { assert (LA : loop_body 0 ("A", fA) w = (inl 1, wA, oA))
      by (rewrite loop_body_eq; simpl; now rewrite EA).
    assert (LB : loop_body 1 ("B", fB) wA =
                 (inl 1, wB, (oB ++ [failed_line "B" e])%list))
      by (rewrite loop_body_eq; simpl; now rewrite EB, Ee).
    assert (LC : loop_body 1 ("C", fC) wB = (inl 1, wC, oC))
      by (rewrite loop_body_eq; simpl; now rewrite EC).
    assert (LD : loop_body 1 ("D", fD) wC = (inl 2, wD, oD))
      by (rewrite loop_body_eq; simpl; now rewrite ED).
    unfold demos. cbn [for_demos].
    rewrite (bind_after _ _ _ _ _ _ LA), (bind_after _ _ _ _ _ _ LB),
      (bind_after _ _ _ _ _ _ LC), (bind_after _ _ _ _ _ _ LD).
    unfold ret. simpl.
    now rewrite app_nil_r, <- !app_assoc. }
  split; [| split; [reflexivity | split; [| split]]].
  - rewrite (run_demos_eq _ _ _ _ _ E). now rewrite <- !app_assoc.
  - rewrite (run_demos_eq _ _ _ _ _ (for_demos_logged _ _ _ [] _ _ _ E)).
    reflexivity.
  - intros k. rewrite loop_body_eq. simpl. now rewrite EB, Ee.
  - intros k. rewrite loop_body_eq. simpl. now rewrite EC.
Qed.

End Summary.

(** C6 as worded fails.  The summary of a run over the empty list does not
    read [Completed 0/0 units successfully.], with or without the full stop:
    no line of the run has [units successfully] in it. *)
Lemma empty_run_summary_says_demos :
  snd (@run_demos unit [] tt) =
    [separator_line; "Completed 0/0 demos successfully!"] /\
  ~ In "Completed 0/0 units successfully." (snd (@run_demos unit [] tt)) /\
  ~ In "Completed 0/0 units successfully" (snd (@run_demos unit [] tt)) /\
  existsb (contains "units successfully") (snd (@run_demos unit [] tt)) = false.
Proof.
  split; [reflexivity |]. split; [| split; [| reflexivity]].
  - simpl. intros [H | [H | []]]; discriminate H.
  - simpl. intros [H | [H | []]]; discriminate H.
Qed.

(** C7 as worded fails.  The run over the scenario does not end with
    [Completed 2/4 units successfully.]: its last line is
    [Completed 2/4 demos successfully!]. *)
Lemma scenario_summary_says_demos :
  snd (run_demos scenario tt) =
    ["❌ B demo failed: boom"; separator_line;
     "Completed 2/4 demos successfully!"] /\
  ~ In "Completed 2/4 units successfully." (snd (run_demos scenario tt)).
Proof.
  split; [reflexivity |].
  simpl. intros [H | [H | [H | []]]]; discriminate H.
Qed.

(** ** Interrupts, missing keys and failure lines *)

Section Scripts.

Context {W : Type} {X : Externals W}.

Lemma bind_print {B} (line : string) (f : unit -> M W B) (w : W) :
  bind (print line) f w = after_output [line] (f tt w).
Proof. reflexivity. Qed.

(** [setup_api_key] of either script when the variable is unset or empty. *)
Lemma claude_setup_api_key_no_key (w : W) u wl ol key wg og :
  load_dotenv ".env" w = (inl u, wl, ol) ->
  getenv "ANTHROPIC_API_KEY" wl = (inl key, wg, og) ->
  truthy key = false ->
  ClaudeCodeDemo.setup_api_key w =
    (inl false, wg,
     (ol ++ og ++ ["❌ No API key found in .env file";
                   "Please set ANTHROPIC_API_KEY in ib_invoice_ops/.env"])%list).
Proof.
  intros El Eg Et. unfold ClaudeCodeDemo.setup_api_key.
  rewrite (bind_after _ _ _ _ _ _ El), (bind_after _ _ _ _ _ _ Eg), Et.
  reflexivity.
Qed.

Lemma simple_setup_api_key_no_key (w : W) u wl ol key wg og :
  load_dotenv ".env" w = (inl u, wl, ol) ->
  getenv "ANTHROPIC_API_KEY" wl = (inl key, wg, og) ->
  truthy key = false ->
  SimpleClaudeDemo.setup_api_key w =
    (inl false, wg,
     (ol ++ og ++ ["❌ No API key found in .env file";
                   "Please set ANTHROPIC_API_KEY in .env"])%list).
Proof.
  intros El Eg Et. unfold SimpleClaudeDemo.setup_api_key.
  rewrite (bind_after _ _ _ _ _ _ El), (bind_after _ _ _ _ _ _ Eg), Et.
  reflexivity.
Qed.

(** With a key found, [run_all_demos] of either script gets to the loop. *)
Lemma claude_run_all_demos_reaches_loop (w : W) wi oi ws os b wc oc :
  ClaudeCodeDemo.install_requirements w = (inl tt, wi, oi) ->
  ClaudeCodeDemo.setup_api_key wi = (inl true, ws, os) ->
  ClaudeCodeDemo.check_claude_cli ws = (inl b, wc, oc) ->
  ClaudeCodeDemo.run_all_demos w =
    after_output
      (["Claude API Demo Starting..."; str_mul "=" 50] ++ oi ++ os ++ oc)
      (run_demos ClaudeCodeDemo.demos wc).
Proof.
  intros Ei Es Ec. unfold ClaudeCodeDemo.run_all_demos.
  rewrite !bind_print, (bind_after _ _ _ _ _ _ Ei),
    (bind_after _ _ _ _ _ _ Es).
  cbn [negb]. rewrite (bind_after _ _ _ _ _ _ Ec).
  rewrite !after_output_app, <- !app_assoc. reflexivity.
Qed.

Lemma simple_run_all_demos_reaches_loop (w : W) ws os wi oi :
  SimpleClaudeDemo.setup_api_key w = (inl true, ws, os) ->
  SimpleClaudeDemo.install_if_needed ws = (inl tt, wi, oi) ->
  SimpleClaudeDemo.run_all_demos w =
    after_output
      (["Simple Claude API Demo Starting..."; str_mul "=" 50] ++ os ++ oi)
      (run_demos SimpleClaudeDemo.demos wi).
Proof.
  intros Es Ei. unfold SimpleClaudeDemo.run_all_demos.
  rewrite !bind_print, (bind_after _ _ _ _ _ _ Es).
  cbn [negb]. rewrite (bind_after _ _ _ _ _ _ Ei).
  rewrite !after_output_app, <- !app_assoc. reflexivity.
Qed.

(** [main] hands on a normal return of the coroutine. *)
Lemma main_of_returns (run : M W unit) (w : W) w1 o1 :
  run w = (inl tt, w1, o1) -> main_of run w = (inl tt, w1, o1).
Proof. intros E. unfold main_of, try_except. now rewrite E. Qed.

(** C8.  Let [run_all_demos] have got to the loop, and the loop to an entry
    [(name, f)] whose operation is cut short by a [KeyboardInterrupt] (which
    is no [Exception]).  The loop body does not catch it; it leaves
    [run_all_demos] with the world and the output as they were when it was
    raised, whatever the entries that follow, so that none of these runs (a
    call log ends with [name]) and neither separator nor summary is printed;
    [main] catches it, prints the interruption notice and returns. *)
Theorem interrupt_ends_the_run (run_all_demos : M W unit)
    (pre post : list (@WorkUnit W)) (name : string) (f : M W bool)
    (w : W) o0 w0 k w1 o1 e w2 o2 :
  run_all_demos w =
    after_output o0 (run_demos (pre ++ (name, f) :: post) w0) ->
  for_demos pre 0 w0 = (inl k, w1, o1) ->
  f w1 = (inr e, w2, o2) ->
  isinstance e "KeyboardInterrupt" = true ->
  isinstance e "Exception" = false ->
  loop_body k (name, f) w1 = (inr e, w2, o2) /\
  for_demos (map logged (pre ++ (name, f) :: post)) 0 (w0, []) =
    (inr e, (w2, (map fst pre ++ [name])%list), (o1 ++ o2)%list) /\
  run_all_demos w = (inr e, w2, (o0 ++ o1 ++ o2)%list) /\
  main_of run_all_demos w =
    (inl tt, w2,
     (o0 ++ o1 ++ o2 ++ [interrupted_line])%list) /\
  interrupted_line = nl ++ nl ++ "Demo interrupted by user".
Proof.
  intros Erun Epre Ef Ek Ee.
  assert (Eb : loop_body k (name, f) w1 = (inr e, w2, o2))
    by (rewrite loop_body_eq; simpl; now rewrite Ef, Ee).
  assert (Er : run_all_demos w = (inr e, w2, (o0 ++ o1 ++ o2)%list)).
  { rewrite Erun.
    rewrite (run_demos_raise (pre ++ (name, f) :: post) w0 e w2 (o1 ++ o2)).
    - reflexivity.
    - rewrite for_demos_app, Epre. cbn [for_demos].
      now rewrite (bind_raise _ _ _ _ _ _ Eb). }
  split; [exact Eb |]. split; [| split; [exact Er | split; [| reflexivity]]].
  - rewrite map_app, for_demos_app.
    rewrite (for_demos_logged _ _ _ [] _ _ _ Epre).
    cbn [map for_demos app]. unfold bind. rewrite loop_body_eq.
    cbn [logged fst snd]. now rewrite Ef, Ee.
  - unfold main_of, try_except. rewrite Er. cbn [find_clause]. rewrite Ek.
    unfold print. now rewrite <- !app_assoc.
Qed.

(** C10.  In either script, when [os.getenv] gives [None] or the empty text,
    [run_all_demos] returns after the two lines of [setup_api_key]: the
    world is the one [os.getenv] left, whatever the operations of the demos
    would do, and nothing is printed after those two lines; [main] returns
    likewise, with no interruption notice. *)
Theorem no_api_key_returns_before_the_loop :
  (forall (w : W) wi oi u wl ol key wg og,
      ClaudeCodeDemo.install_requirements w = (inl tt, wi, oi) ->
      load_dotenv ".env" wi = (inl u, wl, ol) ->
      getenv "ANTHROPIC_API_KEY" wl = (inl key, wg, og) ->
      truthy key = false ->
      let out :=
        (["Claude API Demo Starting..."; str_mul "=" 50] ++ oi ++ ol ++ og
         ++ ["❌ No API key found in .env file";
             "Please set ANTHROPIC_API_KEY in ib_invoice_ops/.env"])%list in
      ClaudeCodeDemo.run_all_demos w = (inl tt, wg, out) /\
      ClaudeCodeDemo.main w = (inl tt, wg, out)) /\
  (forall (w : W) u wl ol key wg og,
      load_dotenv ".env" w = (inl u, wl, ol) ->
      getenv "ANTHROPIC_API_KEY" wl = (inl key, wg, og) ->
      truthy key = false ->
      let out :=
        (["Simple Claude API Demo Starting..."; str_mul "=" 50] ++ ol ++ og
         ++ ["❌ No API key found in .env file";
             "Please set ANTHROPIC_API_KEY in .env"])%list in
      SimpleClaudeDemo.run_all_demos w = (inl tt, wg, out) /\
      SimpleClaudeDemo.main w = (inl tt, wg, out)).
Proof.
  split.
  - intros w wi oi u wl ol key wg og Ei El Eg Et out.
    assert (E : ClaudeCodeDemo.run_all_demos w = (inl tt, wg, out)).
    { unfold ClaudeCodeDemo.run_all_demos.
      rewrite !bind_print, (bind_after _ _ _ _ _ _ Ei),
        (bind_after _ _ _ _ _ _
           (claude_setup_api_key_no_key _ _ _ _ _ _ _ El Eg Et)).
      unfold out. cbn [negb after_output ret app].
      now rewrite ?app_nil_r, <- ?app_assoc. }
    split; [exact E | exact (main_of_returns _ _ _ _ E)].
  - intros w u wl ol key wg og El Eg Et out.
    assert (E : SimpleClaudeDemo.run_all_demos w = (inl tt, wg, out)).
    { unfold SimpleClaudeDemo.run_all_demos.
      rewrite !bind_print,
        (bind_after _ _ _ _ _ _
           (simple_setup_api_key_no_key _ _ _ _ _ _ _ El Eg Et)).
      unfold out. cbn [negb after_output ret app].
      now rewrite ?app_nil_r, <- ?app_assoc. }
    split; [exact E | exact (main_of_returns _ _ _ _ E)].
Qed.

End Scripts.

(** ** The demos of the two scripts are contained *)

Section Demos.

Context {W : Type} {X : Externals W}.

Lemma contained_ret {A} (a : A) : contained (W := W) (ret a).
Proof. intros w. exact I. Qed.

Lemma contained_print (line : string) : contained (W := W) (print line).
Proof. intros w. exact I. Qed.

Lemma contained_bind {A B} (m : M W A) (f : A -> M W B) :
  contained m -> (forall a, contained (f a)) -> contained (bind m f).
Proof.
  intros Cm Cf w. unfold bind. specialize (Cm w).
  destruct (m w) as [[[a | e] w1] o1]; [| exact Cm].
  specialize (Cf a w1). now destruct (f a w1) as [[[b | e] w2] o2].
Qed.

Lemma contained_try_except {A} (body : M W A)
    (clauses : list (string * (exn -> M W A))) :
  contained body ->
  Forall (fun c => forall e, contained (snd c e)) clauses ->
  contained (try_except body clauses).
Proof.
  intros Cb Ch w. unfold try_except. specialize (Cb w).
  destruct (body w) as [[[a | e] w1] o1]; [exact I |].
  destruct (find_clause e clauses) as [h |] eqn:E; [| exact Cb].
  assert (Chh : forall e', contained (h e')).
  { clear Cb. induction Ch as [| [cls h'] rest C Ch IH]; [discriminate |].
    simpl in E. destruct (isinstance e cls).
    - injection E as <-. exact C.
    - exact (IH E). }
  specialize (Chh e w1). now destruct (h e w1) as [[[b | e'] w2] o2].
Qed.

Lemma contained_content_0_text (response : list string) :
  contained (W := W) (content_0_text response).
Proof. intros w. destruct response; simpl; reflexivity. Qed.

(** Closes a goal [contained m] for [m] built from [print], [ret], the SDK,
    the service and [try] statements. *)
Ltac contained_tac U :=
  destruct U as (Ui & Uc & Um);
  repeat first
    [ exact Ui | exact Uc | apply Um
    | apply contained_print | apply contained_ret
    | apply contained_content_0_text
    | apply contained_bind; [| intros ?]
    | apply contained_try_except; [| repeat constructor; intros ?]
    | match goal with |- contained (match ?x with _ => _ end) => destruct x end ].

Lemma claude_demos_contained :
  uninterrupted X ->
  Forall (fun u => contained (snd u)) ClaudeCodeDemo.demos.
Proof.
  intros U. unfold ClaudeCodeDemo.demos.
  repeat constructor; cbn [snd];
    [ unfold ClaudeCodeDemo.demo_hello_world
    | unfold ClaudeCodeDemo.demo_code_generation
    | unfold ClaudeCodeDemo.demo_code_review
    | unfold ClaudeCodeDemo.demo_debugging_help
    | unfold ClaudeCodeDemo.demo_multi_turn
    | unfold ClaudeCodeDemo.demo_error_handling ];
    contained_tac U.
Qed.

Lemma simple_demos_contained :
  uninterrupted X ->
  Forall (fun u => contained (snd u)) SimpleClaudeDemo.demos.
Proof.
  intros U. unfold SimpleClaudeDemo.demos.
  repeat constructor; cbn [snd];
    [ unfold SimpleClaudeDemo.demo_hello_world
    | unfold SimpleClaudeDemo.demo_code_generation
    | unfold SimpleClaudeDemo.demo_code_review
    | unfold SimpleClaudeDemo.demo_debugging_help ];
    contained_tac U.
Qed.

(** X16.  [claudeCodeDemo.py], once it has got to the loop with nobody
    interrupting the SDK or the service, returns from [main] having printed
    its summary last, with at most six out of six. *)
Lemma claude_run_all_demos_summary (w : W) wi oi ws os b wc oc :
  uninterrupted X ->
  ClaudeCodeDemo.install_requirements w = (inl tt, wi, oi) ->
  ClaudeCodeDemo.setup_api_key wi = (inl true, ws, os) ->
  ClaudeCodeDemo.check_claude_cli ws = (inl b, wc, oc) ->
  exists k w1 o1,
    k <= 6 /\
    ClaudeCodeDemo.main w =
      (inl tt, w1, (o1 ++ [separator_line; summary_line k 6])%list).
Proof.
  intros U Ei Es Ec.
  destruct (for_demos_contained _ 0 wc (claude_demos_contained U))
    as (k & w1 & o1 & E).
  exists k, w1,
    (["Claude API Demo Starting..."; str_mul "=" 50] ++ oi ++ os ++ oc ++ o1)%list.
  split.
  - apply for_demos_counter in E. simpl in E. lia.
  - apply main_of_returns.
    rewrite (claude_run_all_demos_reaches_loop _ _ _ _ _ _ _ _ Ei Es Ec).
    rewrite (run_demos_eq _ _ _ _ _ E). cbn [after_output].
    now rewrite <- !app_assoc.
Qed.

(** X17.  [simpleClaudeDemo.py], once it has got to the loop with nobody
    interrupting the SDK or the service, returns from [main] having printed
    its summary last, with at most four out of four. *)
Lemma simple_run_all_demos_summary (w : W) ws os wi oi :
  uninterrupted X ->
  SimpleClaudeDemo.setup_api_key w = (inl true, ws, os) ->
  SimpleClaudeDemo.install_if_needed ws = (inl tt, wi, oi) ->
  exists k w1 o1,
    k <= 4 /\
    SimpleClaudeDemo.main w =
      (inl tt, w1, (o1 ++ [separator_line; summary_line k 4])%list).
Proof.
  intros U Es Ei.
  destruct (for_demos_contained _ 0 wi (simple_demos_contained U))
    as (k & w1 & o1 & E).
  exists k, w1,
    (["Simple Claude API Demo Starting..."; str_mul "=" 50] ++ os ++ oi ++ o1)%list.
  split.
  - apply for_demos_counter in E. simpl in E. lia.
  - apply main_of_returns.
    rewrite (simple_run_all_demos_reaches_loop _ _ _ _ _ Es Ei).
    rewrite (run_demos_eq _ _ _ _ _ E). cbn [after_output].
    now rewrite <- !app_assoc.
Qed.

End Demos.

(** ** Which failures the runner names *)

Section Diagnostics.

Context {W : Type}.

Lemma startswith_app (x b : string) : startswith (x ++ b) x = true.
Proof.
  induction x as [| c x IH]; simpl; [reflexivity |].
  now rewrite Ascii.eqb_refl, IH.
Qed.

Lemma contains_app (a x b : string) : contains x (a ++ x ++ b) = true.
Proof.
  induction a as [| c a IH].
  - cbn [append]. pose proof (startswith_app x b) as P.
    destruct (x ++ b); cbn [contains]; now rewrite P.
  - simpl. rewrite IH. apply orb_true_r.
Qed.

(** C9, as the scripts have it.  At an entry [(name, f)]: when [f] raises an
    [Exception] the loop prints [❌ name demo failed: str(e)], a line with
    the name in it, after what [f] printed; when [f] returns [False] the loop
    prints nothing: the output of the turn is what [f] printed.  Either way
    the counter stays as it was. *)
Theorem runner_names_unit_only_when_it_raises (name : string) (f : M W bool)
    (k : nat) (w : W) :
  (forall e w1 o1,
      f w = (inr e, w1, o1) ->
      isinstance e "Exception" = true ->
      loop_body k (name, f) w =
        (inl k, w1, (o1 ++ [failed_line name e])%list) /\
      failed_line name e = "❌ " ++ name ++ " demo failed: " ++ exn_str e /\
      contains name (failed_line name e) = true) /\
  (forall w1 o1,
      f w = (inl false, w1, o1) ->
      loop_body k (name, f) w = (inl k, w1, o1)).
Proof.
  split.
  - intros e w1 o1 Ef Ee. split; [| split; [reflexivity |]].
    + rewrite loop_body_eq. simpl. now rewrite Ef, Ee.
    + unfold failed_line. apply contains_app.
  - intros w1 o1 Ef. rewrite loop_body_eq. simpl. now rewrite Ef.
Qed.

End Diagnostics.

(** C9 as worded fails.  An entry named [Hello World] whose operation
    returns [False] without printing is counted as failed, 0 out of 1, and no
    line of the run has its name in it.  In [simpleClaudeDemo.py] itself,
    with the service out of reach, all four demos are counted as failed and
    the line each failure prints is [❌ Error: Connection error.], the same
    for all four; the names occur in the banners the demos print before
    they call the service. *)
Lemma silent_failure_is_not_named :
  @run_demos unit [("Hello World", ret false)] tt =
    (inl tt, tt, [separator_line; "Completed 0/1 demos successfully!"]) /\
  existsb (contains "Hello World")
    (snd (@run_demos unit [("Hello World", ret false)] tt)) = false /\
  snd (SimpleClaudeDemo.main unreachable_world) =
    ["Simple Claude API Demo Starting...";
     str_mul "=" 50;
     "✓ API key configured from .env file";
     "✓ Anthropic SDK available";
     nl ++ "=== Demo 1: Hello World ===";
     "❌ Error: Connection error.";
     nl ++ "=== Demo 2: Code Generation ===";
     "❌ Error: Connection error.";
     nl ++ "=== Demo 3: Code Review ===";
     "❌ Error: Connection error.";
     nl ++ "=== Demo 4: Debugging Help ===";
     "❌ Error: Connection error.";
     separator_line;
     "Completed 0/4 demos successfully!"].
Proof. repeat split; reflexivity. Qed.

(** ** The theorems at concrete runs *)

Lemma scenario_contained : Forall (fun u => contained (snd u)) scenario.
Proof. repeat constructor; intros []; simpl; reflexivity. Qed.

Lemma run_demos_attempts_each_once_in_order_witness :
  Forall (fun u => contained (snd u)) scenario /\
  exists k w1 o1,
    run_demos scenario tt =
      (inl tt, w1,
       (o1 ++ [separator_line; summary_line k (length scenario)])%list) /\
    run_demos (map logged scenario) (tt, []) =
      (inl tt, (w1, map fst scenario),
       (o1 ++ [separator_line; summary_line k (length scenario)])%list).
Proof.
  split.
  - exact scenario_contained.
  - exact (run_demos_attempts_each_once_in_order scenario tt
             scenario_contained).
Defined.

Lemma successful_never_exceeds_attempted_witness :
  for_demos (firstn 3 scenario) 0 tt =
    (inl 1, tt, ["❌ B demo failed: boom"]) /\
  1 <= length (firstn 3 scenario) /\
  for_demos (firstn 3 scenario ++ skipn 3 scenario) 0 tt =
    after_output ["❌ B demo failed: boom"] (for_demos (skipn 3 scenario) 1 tt).
Proof.
  split; [reflexivity |].
  pose proof (successful_never_exceeds_attempted
                (firstn 3 scenario) (skipn 3 scenario) tt 1 tt
                ["❌ B demo failed: boom"] eq_refl) as (_ & Hle & Happ & _).
  split; [exact Hle | exact Happ].
Defined.

Lemma raised_fault_is_caught_and_run_continues_witness :
  for_demos [("A", ret true)] 0 tt = (inl 1, tt, []) /\
  @raise unit bool (error "RuntimeError" "boom") tt =
    (inr (error "RuntimeError" "boom"), tt, []) /\
  isinstance (error "RuntimeError" "boom") "Exception" = true /\
  for_demos scenario 0 tt =
    after_output ["❌ B demo failed: boom"]
      (for_demos [("C", ret false); ("D", ret true)] 1 tt).
Proof.
  split; [reflexivity |]. split; [reflexivity |]. split; [reflexivity |].
  exact (proj1 (proj2
    (raised_fault_is_caught_and_run_continues
       [("A", ret true)] [("C", ret false); ("D", ret true)]
       "B" (raise (error "RuntimeError" "boom"))
       tt 1 tt [] (error "RuntimeError" "boom") tt []
       eq_refl eq_refl eq_refl))).
Defined.

Lemma all_succeed_reports_N_of_N_witness :
  Forall (fun u => succeeds (snd u))
    [("A", @ret unit bool true); ("D", ret true)] /\
  exists w1 o1 w2 o2,
    run_demos [("A", @ret unit bool true); ("D", ret true)] tt =
      (inl tt, w1, (o1 ++ [separator_line; summary_line 2 2])%list) /\
    run_demos [("A", @ret unit bool true); ("D", ret true)] w1 =
      (inl tt, w2, (o2 ++ [separator_line; summary_line 2 2])%list).
Proof.
  assert (F : Forall (fun u => succeeds (snd u))
                [("A", @ret unit bool true); ("D", ret true)]).
  { repeat constructor; intros w; exists w, []; reflexivity. }
  split; [exact F |].
  exact (all_succeed_reports_N_of_N _ tt F).
Defined.

Lemma all_fail_reports_0_of_N_witness :
  Forall (fun u => fails (snd u))
    [("B", @raise unit bool (error "RuntimeError" "boom")); ("C", ret false)] /\
  exists w1 o1,
    run_demos
      [("B", @raise unit bool (error "RuntimeError" "boom")); ("C", ret false)]
      tt =
    (inl tt, w1, (o1 ++ [separator_line; summary_line 0 2])%list).
Proof.
  assert (F : Forall (fun u => fails (snd u))
                [("B", @raise unit bool (error "RuntimeError" "boom"));
                 ("C", ret false)]).
  { repeat constructor; intros w; simpl; reflexivity. }
  split; [exact F |].
  exact (all_fail_reports_0_of_N _ tt F).
Defined.

Lemma summary_line_printed_once_witness :
  Forall (fun u => contained (snd u)) scenario /\
  Forall (fun u => prints_no_summary (snd u)) scenario /\
  filter is_summary (snd (run_demos scenario tt)) =
    ["Completed 2/4 demos successfully!"].
Proof.
  pose proof scenario_contained as F.
  assert (Q : Forall (fun u => prints_no_summary (snd u)) scenario)
    by (repeat constructor; intros []; reflexivity).
  split; [exact F |]. split; [exact Q |].
  destruct (summary_line_printed_once scenario tt F)
    as (_ & k & w1 & o1 & E & _ & _ & Hone).
  rewrite (Hone Q).
  injection E as <- _ _. reflexivity.
Defined.

Lemma scenario_reports_2_of_4_witness :
  run_demos scenario tt =
    (inl tt, tt,
     ["❌ B demo failed: boom"; separator_line;
      "Completed 2/4 demos successfully!"]) /\
  snd (fst (run_demos (map logged scenario) (tt, []))) =
    (tt, ["A"; "B"; "C"; "D"]).
Proof.
  pose proof (scenario_reports_2_of_4
                (ret true) (raise (error "RuntimeError" "boom"))
                (ret false) (ret true) tt
                tt [] (error "RuntimeError" "boom") tt [] tt [] tt []
                eq_refl eq_refl eq_refl eq_refl eq_refl)
    as (Hrun & _ & Hlog & _).
  split; [exact Hrun | exact Hlog].
Defined.

Lemma runner_names_unit_only_when_it_raises_witness :
  loop_body 1 ("B", @raise unit bool (error "RuntimeError" "boom")) tt =
    (inl 1, tt, ["❌ B demo failed: boom"]) /\
  loop_body 1 ("C", @ret unit bool false) tt = (inl 1, tt, []).
Proof.
  split.
  - exact (proj1 (proj1
      (runner_names_unit_only_when_it_raises
         "B" (raise (error "RuntimeError" "boom")) 1 tt)
      (error "RuntimeError" "boom") tt [] eq_refl eq_refl)).
  - exact (proj2
      (runner_names_unit_only_when_it_raises "C" (ret false) 1 tt)
      tt [] eq_refl).
Defined.

Lemma interrupt_ends_the_run_witness :
  SimpleClaudeDemo.main interrupted_world =
    (inl tt,
     Scripted.mkWorld (Some "sk-test") true [inl ["never sent"]],
     ["Simple Claude API Demo Starting...";
      str_mul "=" 50;
      "✓ API key configured from .env file";
      "✓ Anthropic SDK available";
      nl ++ "=== Demo 1: Hello World ===";
      "Claude: Hi";
      nl ++ "=== Demo 2: Code Generation ===";
      "Generated Code:";
      "code";
      nl ++ "=== Demo 3: Code Review ===";
      interrupted_line]).
Proof.
  exact (proj1 (proj2 (proj2 (proj2
    (interrupt_ends_the_run
       (W := Scripted.world)
       SimpleClaudeDemo.run_all_demos
       [("Hello World", SimpleClaudeDemo.demo_hello_world);
        ("Code Generation", SimpleClaudeDemo.demo_code_generation)]
       [("Debugging Help", SimpleClaudeDemo.demo_debugging_help)]
       "Code Review" SimpleClaudeDemo.demo_code_review
       interrupted_world
       ["Simple Claude API Demo Starting...";
        str_mul "=" 50;
        "✓ API key configured from .env file";
        "✓ Anthropic SDK available"]
       interrupted_world
       2
       (Scripted.mkWorld (Some "sk-test") true
          [inr KeyboardInterrupt; inl ["never sent"]])
       [nl ++ "=== Demo 1: Hello World ===";
        "Claude: Hi";
        nl ++ "=== Demo 2: Code Generation ===";
        "Generated Code:";
        "code"]
       KeyboardInterrupt
       (Scripted.mkWorld (Some "sk-test") true [inl ["never sent"]])
       [nl ++ "=== Demo 3: Code Review ==="]
       eq_refl eq_refl eq_refl eq_refl eq_refl))))).
Defined.

Lemma no_api_key_returns_before_the_loop_witness :
  ClaudeCodeDemo.main keyless_world =
    (inl tt, keyless_world,
     ["Claude API Demo Starting...";
      str_mul "=" 50;
      "✓ Anthropic SDK available";
      "❌ No API key found in .env file";
      "Please set ANTHROPIC_API_KEY in ib_invoice_ops/.env"]) /\
  SimpleClaudeDemo.main keyless_world =
    (inl tt, keyless_world,
     ["Simple Claude API Demo Starting...";
      str_mul "=" 50;
      "❌ No API key found in .env file";
      "Please set ANTHROPIC_API_KEY in .env"]).
Proof.
  split.
  - exact (proj2
      (proj1 (no_api_key_returns_before_the_loop (W := Scripted.world))
         keyless_world keyless_world ["✓ Anthropic SDK available"]
         tt keyless_world [] None keyless_world []
         eq_refl eq_refl eq_refl eq_refl)).
  - exact (proj2
      (proj2 (no_api_key_returns_before_the_loop (W := Scripted.world))
         keyless_world tt keyless_world [] None keyless_world []
         eq_refl eq_refl eq_refl)).
Defined.

(** ** More on the loop *)

Section Counter.

Context {W : Type}.

Lemma loop_body_from_zero (k : nat) (u : @WorkUnit W) (w : W) :
  loop_body k u w = add_to_counter k (loop_body 0 u w).
Proof.
  rewrite !loop_body_eq.
  destruct (snd u w) as [[[[|] | e] w1] o1]; simpl.
  - reflexivity.
  - now rewrite Nat.add_0_r.
  - destruct (isinstance e "Exception"); simpl; [| reflexivity].
    now rewrite Nat.add_0_r.
Qed.

(** X1.  The value the counter has when the loop starts has no part in what
    the loop does: started at [k], the loop leaves the world, prints and
    raises as it does started at 0, and returns [k] more.  So the successes
    of a list in two parts are those of the first part plus those of the
    second, counted from the world the first part left. *)
Theorem for_demos_counts_from_any_start (demos : list (@WorkUnit W))
    (k : nat) (w : W) :
  for_demos demos k w = add_to_counter k (for_demos demos 0 w) /\
  forall post k1 w1 o1,
    for_demos demos 0 w = (inl k1, w1, o1) ->
    for_demos (demos ++ post) 0 w =
      after_output o1 (add_to_counter k1 (for_demos post 0 w1)).
Proof.
  assert (Shift : forall (l : list (@WorkUnit W)) k0 w0,
             for_demos l k0 w0 = add_to_counter k0 (for_demos l 0 w0)).
  { induction l as [| u rest IH]; intros k0 w0.
    - simpl. unfold ret. now rewrite Nat.add_0_r.
    - simpl. unfold bind.
      rewrite (loop_body_from_zero k0).
      destruct (loop_body 0 u w0) as [[[k1 | e] w1] o1]; simpl;
        [| reflexivity].
      rewrite (IH (k0 + k1)), (IH k1).
      destruct (for_demos rest 0 w1) as [[[k2 | e] w2] o2]; simpl;
        [| reflexivity].
      now rewrite Nat.add_assoc. }
  split; [apply Shift |].
  intros post k1 w1 o1 E.
  now rewrite for_demos_app, E, (Shift post k1 w1).
Qed.

End Counter.

Lemma for_demos_counts_from_any_start_witness :
  for_demos scenario 5 tt = (inl 7, tt, ["❌ B demo failed: boom"]) /\
  for_demos (firstn 2 scenario ++ skipn 2 scenario) 0 tt =
    after_output ["❌ B demo failed: boom"]
      (add_to_counter 1 (for_demos (skipn 2 scenario) 0 tt)).
Proof.
  split.
  - exact (proj1 (for_demos_counts_from_any_start scenario 5 tt)).
  - exact (proj2 (for_demos_counts_from_any_start (firstn 2 scenario) 0 tt)
             (skipn 2 scenario) 1 tt ["❌ B demo failed: boom"] eq_refl).
Defined.

(** ** Running a script by hand *)

Lemma snd_after_output {W A} (o : list string) (r : res W A) :
  snd (after_output o r) = (o ++ snd r)%list.
Proof. now destruct r as [[v w] o']. Qed.

Lemma isinstance_IndexError :
  isinstance
    (mkExn "IndexError" ["LookupError"; "Exception"; "BaseException"]
       "list index out of range") "Exception" = true.
Proof. reflexivity. Qed.

(** The last thing printed, [d] standing for nothing printed before. *)
Lemma last_cons_default {A} (x : A) (l : list A) (d : A) :
  last (x :: l) d = last l x.
Proof.
  revert x d. induction l as [| y l IH]; intros x d; [reflexivity |].
  change (last (y :: l) d = last (y :: l) x). now rewrite !IH.
Qed.

Lemma last_app_default {A} (l l' : list A) (d : A) :
  last (l ++ l') d = last l' (last l d).
Proof.
  revert d. induction l as [| x l IH]; intros d; [reflexivity |].
  now rewrite <- app_comm_cons, !last_cons_default, IH.
Qed.

(** One step of a run: a call whose result is among the hypotheses. *)
Ltac known_call :=
  match goal with
  | H : ?t = (_, _, _) |- context [?t] => rewrite H
  | H : forall _, _ = (_, _, _) |- _ => rewrite H
  | H : isinstance ?e ?c = _ |- context [isinstance ?e ?c] => rewrite H
  | |- context [isinstance (mkExn "IndexError" _ _) "Exception"] =>
      rewrite isinstance_IndexError
  end.

(** Runs the code in the goal as far as the hypotheses tell. *)
Ltac run_script :=
  unfold content_0_text, bind, try_except, print, ret, raise;
  repeat first
    [ progress cbn beta iota zeta delta [find_clause fst snd negb]
    | known_call ];
  rewrite <- ?app_assoc, ?app_nil_r; cbn [app];
  rewrite <- ?app_assoc, ?app_nil_r; cbn [app].

(** ** Setting up: the SDK, the key and the CLI *)

Section Setup.

Context {W : Type} {X : Externals W}.

(** X2.  [install_requirements], and the same statement inside
    [run_all_demos] of [simpleClaudeDemo.py]: when the SDK imports, pip is not
    run; when the import raises an [ImportError], pip is run once and its
    success is taken at its word, with no second import; a failure of pip,
    or an import error of another class, is raised to the caller. *)
Theorem install_requirements_runs_pip_only_on_import_error (w : W) :
  SimpleClaudeDemo.install_if_needed = ClaudeCodeDemo.install_requirements /\
  (forall u w1 o1,
      import_anthropic w = (inl u, w1, o1) ->
      ClaudeCodeDemo.install_requirements w =
        (inl tt, w1, (o1 ++ ["✓ Anthropic SDK available"])%list)) /\
  (forall e w1 o1 u w2 o2,
      import_anthropic w = (inr e, w1, o1) ->
      isinstance e "ImportError" = true ->
      pip_install_anthropic w1 = (inl u, w2, o2) ->
      ClaudeCodeDemo.install_requirements w =
        (inl tt, w2,
         (o1 ++ ["Installing Anthropic SDK..."] ++ o2
          ++ ["✓ Anthropic SDK installed"])%list)) /\
  (forall e w1 o1 e2 w2 o2,
      import_anthropic w = (inr e, w1, o1) ->
      isinstance e "ImportError" = true ->
      pip_install_anthropic w1 = (inr e2, w2, o2) ->
      ClaudeCodeDemo.install_requirements w =
        (inr e2, w2, (o1 ++ ["Installing Anthropic SDK..."] ++ o2)%list)) /\
  (forall e w1 o1,
      import_anthropic w = (inr e, w1, o1) ->
      isinstance e "ImportError" = false ->
      ClaudeCodeDemo.install_requirements w = (inr e, w1, o1)).
Proof.
  split; [reflexivity |].
  unfold ClaudeCodeDemo.install_requirements.
  repeat split; intros.
  - run_script. now destruct u.
  - run_script. reflexivity.
  - run_script. reflexivity.
  - run_script. reflexivity.
Qed.

(** X3.  [setup_api_key] of either script returns [True] exactly when
    [os.getenv] gives a text that is not empty: then it writes that text
    back to [os.environ] unchanged and prints one line; for [None] and for
    the empty text it writes nothing, prints its two lines and returns
    [False].  The scripts differ in the second of these lines only. *)
Theorem setup_api_key_is_true_iff_key_is_not_empty (w : W) u wl ol key wg og
    u' we oe :
  load_dotenv ".env" w = (inl u, wl, ol) ->
  getenv "ANTHROPIC_API_KEY" wl = (inl key, wg, og) ->
  (forall k, key = Some k -> truthy key = true ->
     environ_set "ANTHROPIC_API_KEY" k wg = (inl u', we, oe)) ->
  (truthy key = true <-> exists c k, key = Some (String c k)) /\
  ClaudeCodeDemo.setup_api_key w =
    (if truthy key
     then (inl true, we,
           (ol ++ og ++ oe ++ ["✓ API key configured from .env file"])%list)
     else (inl false, wg,
           (ol ++ og
            ++ ["❌ No API key found in .env file";
                "Please set ANTHROPIC_API_KEY in ib_invoice_ops/.env"])%list)) /\
  SimpleClaudeDemo.setup_api_key w =
    (if truthy key
     then (inl true, we,
           (ol ++ og ++ oe ++ ["✓ API key configured from .env file"])%list)
     else (inl false, wg,
           (ol ++ og
            ++ ["❌ No API key found in .env file";
                "Please set ANTHROPIC_API_KEY in .env"])%list)).
Proof.
  intros El Eg Ee. split.
  - destruct key as [[| c k] |]; simpl; split;
      try discriminate; try (intros (c' & k' & [=])); eauto.
  - unfold ClaudeCodeDemo.setup_api_key, SimpleClaudeDemo.setup_api_key.
    destruct key as [[| c k] |]; cbn [truthy];
      try (specialize (Ee _ eq_refl eq_refl));
      split; run_script; cbn [truthy]; run_script; reflexivity.
Qed.

(** X4.  [check_claude_cli] never stands in the way of the demos: whenever
    it returns, it returns [True]; a missing binary ([FileNotFoundError]) is
    reported in two lines and not raised; any return code but 0 is reported
    as not found. *)
Theorem check_claude_cli_is_optional (w : W) :
  (forall b w1 o1,
      ClaudeCodeDemo.check_claude_cli w = (inl b, w1, o1) -> b = true) /\
  (forall e w1 o1,
      run_claude_version w = (inr e, w1, o1) ->
      isinstance e "FileNotFoundError" = true ->
      ClaudeCodeDemo.check_claude_cli w =
        (inl true, w1,
         (o1 ++ ["ℹ️ Claude CLI not found (optional)";
                 "Install with: npm install -g @anthropic-ai/claude-code"])%list)) /\
  (forall returncode w1 o1,
      run_claude_version w = (inl returncode, w1, o1) ->
      ClaudeCodeDemo.check_claude_cli w =
        (inl true, w1,
         (o1 ++ [if (returncode =? 0)%Z
                 then "✓ Claude CLI is installed"
                 else "ℹ️ Claude CLI not found (optional)"])%list)).
Proof.
  unfold ClaudeCodeDemo.check_claude_cli. repeat split.
  - intros b w1 o1. unfold try_except, bind, print, ret.
    destruct (run_claude_version w) as [[[rc | e] w2] o2].
    + destruct (rc =? 0)%Z; simpl; now intros [= <- _ _].
    + cbn [find_clause].
      destruct (isinstance e "FileNotFoundError"); simpl;
        [now intros [= <- _ _] | discriminate].
  - intros. run_script. reflexivity.
  - intros. run_script. destruct (returncode =? 0)%Z; run_script; reflexivity.
Qed.

End Setup.

(** ** The demos *)

Section DemoFacts.

Context {W : Type} {X : Externals W}.

Lemma never_raises_ret {A} (a : A) : never_raises (W := W) (ret a).
Proof. intros w. unfold ret. eauto. Qed.

Lemma never_raises_print (line : string) : never_raises (W := W) (print line).
Proof. intros w. unfold print. eauto. Qed.

Lemma never_raises_bind {A B} (m : M W A) (f : A -> M W B) :
  never_raises m -> (forall a, never_raises (f a)) -> never_raises (bind m f).
Proof.
  intros Nm Nf w. unfold bind.
  destruct (Nm w) as (a & w1 & o1 & ->).
  destruct (Nf a w1) as (b & w2 & o2 & ->). eauto.
Qed.

(** A [try] with one clause, [except Exception], whose handler returns, over
    a body that nobody interrupts: the statement returns. *)
Lemma never_raises_try_except {A} (body : M W A) (handler : exn -> M W A) :
  contained body ->
  (forall e, never_raises (handler e)) ->
  never_raises (try_except body [("Exception", handler)]).
Proof.
  intros Cb Nh w. unfold try_except. specialize (Cb w).
  destruct (body w) as [[[a | e] w1] o1]; [eauto |].
  cbn [find_clause]. rewrite Cb.
  destruct (Nh e w1) as (b & w2 & o2 & ->). eauto.
Qed.

(** Closes [contained m] and [never_raises m] for the bodies of the demos. *)
Ltac demo_tac Ui Uc Um :=
  repeat first
    [ exact Ui | exact Uc | apply Um
    | apply contained_print | apply contained_ret
    | apply contained_content_0_text
    | apply never_raises_print | apply never_raises_ret
    | apply never_raises_try_except; [| intros ?]
    | apply never_raises_bind; [| intros ?]
    | apply contained_bind; [| intros ?] ].

(** X5.  In [simpleClaudeDemo.py] every demo has its whole body, the import
    included, inside [try ... except Exception]: as long as nobody interrupts
    the SDK or the service, a demo returns, [True] or [False]; the [except]
    clause of the loop in [run_all_demos] is never entered, and every line
    the loop puts out is a line one of the demos printed. *)
Theorem simple_demos_never_raise :
  uninterrupted X ->
  Forall (fun u => never_raises (snd u)) SimpleClaudeDemo.demos /\
  forall k w, exists k1 w1 o1,
    for_demos SimpleClaudeDemo.demos k w = (inl k1, w1, o1) /\
    forall line, In line o1 ->
      exists u w0, In u SimpleClaudeDemo.demos /\
                   In line (snd (snd u w0)).
Proof.
  intros (Ui & Uc & Um).
  assert (N : Forall (fun u => never_raises (snd u)) SimpleClaudeDemo.demos).
  { unfold SimpleClaudeDemo.demos.
    repeat constructor; cbn [snd];
      [ unfold SimpleClaudeDemo.demo_hello_world
      | unfold SimpleClaudeDemo.demo_code_generation
      | unfold SimpleClaudeDemo.demo_code_review
      | unfold SimpleClaudeDemo.demo_debugging_help ];
      demo_tac Ui Uc Um. }
  split; [exact N |].
  intros k w.
  assert (G : forall (l : list (@WorkUnit W)),
             Forall (fun u => never_raises (snd u)) l ->
             forall k w, exists k1 w1 o1,
               for_demos l k w = (inl k1, w1, o1) /\
               forall line, In line o1 ->
                 exists u w0, In u l /\ In line (snd (snd u w0))).
  { clear. intros l F. induction F as [| u rest Nu F IH]; intros k w.
    - exists k, w, []. split; [reflexivity |]. intros line [].
    - simpl. unfold bind. rewrite loop_body_eq.
      destruct (Nu w) as (b & w1 & o1 & Eu). rewrite Eu.
      destruct (IH (if b then k + 1 else k) w1) as (k2 & w2 & o2 & E2 & I2).
      destruct b; rewrite E2; eexists _, _, _; (split; [reflexivity |]);
        intros line Hin; apply in_app_or in Hin as [Hin | Hin].
      + exists u, w. rewrite Eu. split; [now left | exact Hin].
      + destruct (I2 line Hin) as (u' & w0 & Hu & Hl).
        exists u', w0. split; [now right | exact Hl].
      + exists u, w. rewrite Eu. split; [now left | exact Hin].
      + destruct (I2 line Hin) as (u' & w0 & Hu & Hl).
        exists u', w0. split; [now right | exact Hl]. }
  exact (G _ N k w).
Qed.

End DemoFacts.

(** ** Each demo, case by case *)

(** Replaces the ten demos by their bodies. *)
Ltac open_demo :=
  cbv beta delta
    [ClaudeCodeDemo.demo_hello_world ClaudeCodeDemo.demo_code_generation
     ClaudeCodeDemo.demo_code_review ClaudeCodeDemo.demo_debugging_help
     ClaudeCodeDemo.demo_multi_turn ClaudeCodeDemo.demo_error_handling
     SimpleClaudeDemo.demo_hello_world SimpleClaudeDemo.demo_code_generation
     SimpleClaudeDemo.demo_code_review SimpleClaudeDemo.demo_debugging_help].

(** Splits [In u (ClaudeCodeDemo.demos ++ SimpleClaudeDemo.demos)] into its
    ten cases. *)
Ltac each_demo H :=
  cbv beta delta [ClaudeCodeDemo.demos SimpleClaudeDemo.demos] in H;
  cbn [app In] in H;
  repeat (destruct H as [<- | H]); [.. | destruct H];
  cbn [fst snd]; open_demo.

Section DemoRuns.

Context {W : Type} {X : Externals W}.

(** X6.  Every demo of either script prints its banner before anything
    else, whatever happens next, and the banner [=== Demo n: ... ===] has in
    it the name under which the demo stands in the [demos] list. *)
Theorem every_demo_starts_with_its_banner (u : @WorkUnit W) (w : W) :
  In u (ClaudeCodeDemo.demos ++ SimpleClaudeDemo.demos) ->
  exists banner rest,
    snd (snd u w) = banner :: rest /\
    startswith banner (nl ++ "=== Demo ") = true /\
    contains (fst u) banner = true.
Proof.
  intros Hin. each_demo Hin;
    rewrite bind_print, snd_after_output;
    eexists _, _; (split; [reflexivity | split; reflexivity]).
Qed.

(** A demo of [claudeCodeDemo.py] whose import raises. *)
Lemma claude_demo_raises_import_error (u : @WorkUnit W) (w : W) e w1 o1 :
  In u ClaudeCodeDemo.demos ->
  import_anthropic w = (inr e, w1, o1) ->
  exists banner, snd u w = (inr e, w1, banner :: o1).
Proof.
  intros Hin Ei.
  cbv beta delta [ClaudeCodeDemo.demos] in Hin. cbn [In] in Hin.
  repeat (destruct Hin as [<- | Hin]); [.. | destruct Hin];
    cbn [snd]; open_demo; eexists; run_script; reflexivity.
Qed.

(** A demo of [simpleClaudeDemo.py] whose import raises an [Exception]. *)
Lemma simple_demo_handles_import_error (u : @WorkUnit W) (w : W) e w1 o1 :
  In u SimpleClaudeDemo.demos ->
  import_anthropic w = (inr e, w1, o1) ->
  isinstance e "Exception" = true ->
  exists banner,
    snd u w =
      (inl false, w1, (banner :: o1 ++ [("❌ Error: " ++ exn_str e)%string])%list).
Proof.
  intros Hin Ei Ee.
  cbv beta delta [SimpleClaudeDemo.demos] in Hin. cbn [In] in Hin.
  repeat (destruct Hin as [<- | Hin]); [.. | destruct Hin];
    cbn [snd]; open_demo; eexists; run_script; reflexivity.
Qed.

(** X7.  In [claudeCodeDemo.py] the [import anthropic] of a demo stands
    before its [try]: when the import raises, the demo has printed its banner
    and no more, makes no request and raises the same exception; if it is an
    [Exception], the loop of [run_all_demos] prints
    [❌ name demo failed: str(e)] and leaves the counter. *)
Theorem claude_demo_lets_import_error_out (u : @WorkUnit W) (k : nat) (w : W)
    e w1 o1 :
  In u ClaudeCodeDemo.demos ->
  import_anthropic w = (inr e, w1, o1) ->
  exists banner,
    snd u w = (inr e, w1, banner :: o1) /\
    (isinstance e "Exception" = true ->
     loop_body k u w =
       (inl k, w1, (banner :: o1 ++ [failed_line (fst u) e])%list)).
Proof.
  intros Hin Ei.
  destruct (claude_demo_raises_import_error u w e w1 o1 Hin Ei)
    as (banner & R).
  exists banner. split; [exact R |].
  intros Ee. rewrite loop_body_eq, R, Ee. reflexivity.
Qed.

(** X8.  A reply without content blocks is a failure the demo handles: with
    the SDK imported and the client made, if the service answers every
    request with an empty [content], each demo of either script returns
    [False] after one request, and the [IndexError] of [content[0]] is what
    it reports. *)
Theorem empty_reply_is_a_handled_failure (u : @WorkUnit W) (w : W)
    ui w1 oi c w2 oc w3 om :
  In u (ClaudeCodeDemo.demos ++ SimpleClaudeDemo.demos) ->
  import_anthropic w = (inl ui, w1, oi) ->
  AsyncAnthropic w1 = (inl c, w2, oc) ->
  (forall messages,
      messages_create c model_name 1000 messages w2 = (inl [], w3, om)) ->
  exists o,
    snd u w = (inl false, w3, o) /\
    (last o EmptyString = "❌ Error: list index out of range" \/
     last o EmptyString =
       "✓ Error handled: IndexError: list index out of range").
Proof.
  intros Hin Ei Ec Em. each_demo Hin;
    eexists; (split; [run_script; reflexivity |]);
    rewrite last_cons_default, !last_app_default; cbn [last]; auto.
Qed.

(** X9.  An error of the service is a failure the demo handles: with the
    SDK imported and the client made, if the request raises an [Exception],
    each demo of either script returns [False], makes no further request, and
    the last thing it prints is [❌ Error: str(e)], or, in the error handling
    demo, [✓ Error handled: type(e).__name__: str(e)]. *)
Theorem service_error_is_a_handled_failure (u : @WorkUnit W) (w : W)
    ui w1 oi c w2 oc e w3 om :
  In u (ClaudeCodeDemo.demos ++ SimpleClaudeDemo.demos) ->
  import_anthropic w = (inl ui, w1, oi) ->
  AsyncAnthropic w1 = (inl c, w2, oc) ->
  (forall messages,
      messages_create c model_name 1000 messages w2 = (inr e, w3, om)) ->
  isinstance e "Exception" = true ->
  exists o,
    snd u w = (inl false, w3, o) /\
    (last o EmptyString = "❌ Error: " ++ exn_str e \/
     last o EmptyString =
       "✓ Error handled: " ++ exn_type e ++ ": " ++ exn_str e).
Proof.
  intros Hin Ei Ec Em Ee. each_demo Hin;
    eexists; (split; [run_script; reflexivity |]);
    rewrite last_cons_default, !last_app_default; cbn [last]; auto.
Qed.

(** X10.  No demo keeps an interrupt to itself: with the SDK imported and
    the client made, if the request is cut short by an exception that is no
    [Exception], each demo of either script raises that exception, having
    printed its banner and no error line. *)
Theorem no_demo_swallows_an_interrupt (u : @WorkUnit W) (w : W)
    ui w1 oi c w2 oc e w3 om :
  In u (ClaudeCodeDemo.demos ++ SimpleClaudeDemo.demos) ->
  import_anthropic w = (inl ui, w1, oi) ->
  AsyncAnthropic w1 = (inl c, w2, oc) ->
  (forall messages,
      messages_create c model_name 1000 messages w2 = (inr e, w3, om)) ->
  isinstance e "Exception" = false ->
  exists banner,
    snd u w = (inr e, w3, (banner :: oi ++ oc ++ om)%list).
Proof.
  intros Hin Ei Ec Em Ee. each_demo Hin;
    eexists; run_script; reflexivity.
Qed.

(** X11.  When [import anthropic] fails with an [Exception] wherever it is
    tried, neither script stops: [claudeCodeDemo.py] counts its six demos as
    failed through the [except] clause of the loop, [simpleClaudeDemo.py] its
    four through the demos' own, and each ends with its summary, 0 out of 6
    and 0 out of 4. *)
Theorem without_the_sdk_every_demo_fails (w : W) :
  (forall w0, exists e w1 o1,
      import_anthropic w0 = (inr e, w1, o1) /\
      isinstance e "Exception" = true) ->
  (exists w1 o1,
      run_demos ClaudeCodeDemo.demos w =
        (inl tt, w1,
         (o1 ++ [separator_line; "Completed 0/6 demos successfully!"])%list)) /\
  (exists w1 o1,
      run_demos SimpleClaudeDemo.demos w =
        (inl tt, w1,
         (o1 ++ [separator_line; "Completed 0/4 demos successfully!"])%list)).
Proof.
  intros Himp.
  assert (Fc : Forall (fun u => fails (snd u)) (ClaudeCodeDemo.demos (W := W))).
  { apply Forall_forall. intros u Hin w0.
    destruct (Himp w0) as (e & w1 & o1 & Ei & Ee).
    destruct (claude_demo_raises_import_error u w0 e w1 o1 Hin Ei)
      as (banner & ->).
    exact Ee. }
  assert (Fs : Forall (fun u => fails (snd u)) (SimpleClaudeDemo.demos (W := W))).
  { apply Forall_forall. intros u Hin w0.
    destruct (Himp w0) as (e & w1 & o1 & Ei & Ee).
    destruct (simple_demo_handles_import_error u w0 e w1 o1 Hin Ei Ee)
      as (banner & ->).
    reflexivity. }
  split.
  - destruct (for_demos_all_fail _ 0 w Fc) as (w1 & o1 & E).
    exists w1, o1. exact (run_demos_eq _ _ _ _ _ E).
  - destruct (for_demos_all_fail _ 0 w Fs) as (w1 & o1 & E).
    exists w1, o1. exact (run_demos_eq _ _ _ _ _ E).
Qed.

(** X12.  The multi-turn demo sends the whole conversation the second time:
    the first question, the first answer in full as the assistant's turn (it
    is only what gets printed that is cut at 300 characters), and the second
    question.  With two answers it returns [True]; when the second request
    raises an [Exception], turn 1 has been printed and the demo returns
    [False]. *)
Theorem multi_turn_sends_the_history (w : W) ui w1 oi c w2 oc
    turn1_content more1 w3 o3 :
  let question :=
    mkMessage "user"
      "Help me design a simple calculator class. Start with the basic structure."
  in
  let history :=
    [question;
     mkMessage "assistant" turn1_content;
     mkMessage "user" "Now add methods for basic arithmetic operations."] in
  import_anthropic w = (inl ui, w1, oi) ->
  AsyncAnthropic w1 = (inl c, w2, oc) ->
  messages_create c model_name 1000 [question] w2 =
    (inl (turn1_content :: more1), w3, o3) ->
  (forall turn2_content more2 w4 o4,
      messages_create c model_name 1000 history w3 =
        (inl (turn2_content :: more2), w4, o4) ->
      ClaudeCodeDemo.demo_multi_turn w =
        (inl true, w4,
         ((nl ++ "=== Demo 5: Multi-turn Conversation ===")%string
          :: oi ++ oc ++ o3
          ++ [(nl ++ "Turn 1:")%string;
              ClaudeCodeDemo.shorten_300 turn1_content]
          ++ o4
          ++ [(nl ++ "Turn 2:")%string;
              ClaudeCodeDemo.shorten_300 turn2_content;
              (nl ++ "Completed 2 turns")%string])%list)) /\
  (forall e w4 o4,
      messages_create c model_name 1000 history w3 = (inr e, w4, o4) ->
      isinstance e "Exception" = true ->
      ClaudeCodeDemo.demo_multi_turn w =
        (inl false, w4,
         ((nl ++ "=== Demo 5: Multi-turn Conversation ===")%string
          :: oi ++ oc ++ o3
          ++ [(nl ++ "Turn 1:")%string;
              ClaudeCodeDemo.shorten_300 turn1_content]
          ++ o4
          ++ [("❌ Error: " ++ exn_str e)%string])%list)).
Proof.
  intros question history Ei Ec E1. subst question history.
  unfold ClaudeCodeDemo.demo_multi_turn.
  split; intros; run_script; reflexivity.
Qed.

End DemoRuns.

(** ** Texts cut for printing *)

Lemma length_append (a b : string) :
  String.length (a ++ b) = String.length a + String.length b.
Proof. induction a as [| c a IH]; simpl; [reflexivity | now rewrite IH]. Qed.

Lemma length_substring_0 (n : nat) (s : string) :
  String.length (substring 0 n s) = Nat.min n (String.length s).
Proof.
  revert s. induction n as [| n IH]; intros s.
  - now destruct s.
  - destruct s as [| c s]; simpl; [reflexivity | now rewrite IH].
Qed.

Lemma substring_0_all (n : nat) (s : string) :
  String.length s <= n -> substring 0 n s = s.
Proof.
  revert s. induction n as [| n IH]; intros s L.
  - destruct s; [reflexivity | simpl in L; lia].
  - destruct s as [| c s]; simpl; [reflexivity |].
    simpl in L. rewrite IH; [reflexivity | lia].
Qed.

Lemma startswith_substring_0 (n : nat) (s : string) :
  startswith s (substring 0 n s) = true.
Proof.
  revert s. induction n as [| n IH]; intros s.
  - now destruct s.
  - destruct s as [| c s]; simpl; [reflexivity |].
    now rewrite Ascii.eqb_refl, IH.
Qed.

(** X13.  What the multi-turn demo prints of an answer is never longer
    than 303 characters and always begins with the first 300 of the answer:
    an answer of up to 300 characters is printed as it is, a longer one as
    its first 300 characters and three dots. *)
Theorem shorten_300_keeps_the_first_300 (t : string) :
  String.length (ClaudeCodeDemo.shorten_300 t) <= 303 /\
  startswith (ClaudeCodeDemo.shorten_300 t) (slice_to 300 t) = true /\
  (String.length t <= 300 -> ClaudeCodeDemo.shorten_300 t = t) /\
  (300 < String.length t ->
   ClaudeCodeDemo.shorten_300 t = slice_to 300 t ++ "..." /\
   String.length (ClaudeCodeDemo.shorten_300 t) = 303).
Proof.
  unfold ClaudeCodeDemo.shorten_300, slice_to.
  destruct (300 <? String.length t)%nat eqn:E.
  - apply Nat.ltb_lt in E. repeat split.
    + rewrite length_append, length_substring_0. simpl String.length. lia.
    + apply startswith_app.
    + lia.
    + rewrite length_append, length_substring_0. simpl String.length. lia.
  - apply Nat.ltb_ge in E. split; [lia |]. split; [| split].
    + apply startswith_substring_0.
    + reflexivity.
    + lia.
Qed.

Section Preview.

Context {W : Type} {X : Externals W}.

(** X14.  The error handling demo, when the service answers: it prints
    [Success!] and then the first 200 characters of the answer followed by
    three dots, at most 203 characters, and returns [True].  The dots are
    there for a short answer too, of which nothing was cut. *)
Theorem error_handling_demo_prints_a_preview (w : W) ui w1 oi c w2 oc
    text more w3 om :
  import_anthropic w = (inl ui, w1, oi) ->
  AsyncAnthropic w1 = (inl c, w2, oc) ->
  messages_create c model_name 1000
    [mkMessage "user" "Write a brief guide on Python error handling"] w2 =
    (inl (text :: more), w3, om) ->
  ClaudeCodeDemo.demo_error_handling w =
    (inl true, w3,
     ((nl ++ "=== Demo 6: Error Handling ===")%string
      :: oi ++ oc ++ om
      ++ ["Success!"; (slice_to 200 text ++ "...")%string])%list) /\
  String.length (slice_to 200 text ++ "...") <= 203 /\
  (String.length text <= 200 -> slice_to 200 text ++ "..." = text ++ "...").
Proof.
  intros Ei Ec Em. split; [| split].
  - unfold ClaudeCodeDemo.demo_error_handling. run_script. reflexivity.
  - unfold slice_to. rewrite length_append, length_substring_0.
    simpl String.length. lia.
  - intros L. unfold slice_to. now rewrite substring_0_all.
Qed.

(** X15.  A failing pip ends the script before any demo.  In
    [claudeCodeDemo.py], where the SDK comes first: the import raises an
    [ImportError], pip raises an [Exception], and [main] prints
    [Demo failed: str(e)] and returns, the key never looked up.  In
    [simpleClaudeDemo.py] the same happens after the key has been set up. *)
Theorem failing_pip_ends_the_script :
  (forall (w : W) e1 w1 o1 e2 w2 o2,
      import_anthropic w = (inr e1, w1, o1) ->
      isinstance e1 "ImportError" = true ->
      pip_install_anthropic w1 = (inr e2, w2, o2) ->
      isinstance e2 "KeyboardInterrupt" = false ->
      isinstance e2 "Exception" = true ->
      ClaudeCodeDemo.main w =
        (inl tt, w2,
         (["Claude API Demo Starting..."; str_mul "=" 50] ++ o1
          ++ ["Installing Anthropic SDK..."] ++ o2
          ++ [(nl ++ "Demo failed: " ++ exn_str e2)%string])%list)) /\
  (forall (w : W) ws os e1 w1 o1 e2 w2 o2,
      SimpleClaudeDemo.setup_api_key w = (inl true, ws, os) ->
      import_anthropic ws = (inr e1, w1, o1) ->
      isinstance e1 "ImportError" = true ->
      pip_install_anthropic w1 = (inr e2, w2, o2) ->
      isinstance e2 "KeyboardInterrupt" = false ->
      isinstance e2 "Exception" = true ->
      SimpleClaudeDemo.main w =
        (inl tt, w2,
         (["Simple Claude API Demo Starting..."; str_mul "=" 50] ++ os ++ o1
          ++ ["Installing Anthropic SDK..."] ++ o2
          ++ [(nl ++ "Demo failed: " ++ exn_str e2)%string])%list)).
Proof.
  split; intros.
  - unfold ClaudeCodeDemo.main, main_of, ClaudeCodeDemo.run_all_demos,
      ClaudeCodeDemo.install_requirements, demo_failed_line.
    run_script. reflexivity.
  - unfold SimpleClaudeDemo.main, main_of, SimpleClaudeDemo.run_all_demos,
      SimpleClaudeDemo.install_if_needed, demo_failed_line.
    run_script. reflexivity.
Qed.

End Preview.

(** ** What gets out of the loop and of [main] *)

Section Isolation.

Context {W : Type}.

(** X18.  Whatever the operations do, no [Exception] gets out of the loop
    or of the run: an exception that does is no instance of [Exception], and
    it is one that an operation of the list raised. *)
Theorem loop_lets_no_exception_out (demos : list (@WorkUnit W)) (k : nat)
    (w : W) :
  match for_demos demos k w with
  | (inl _, _, _) => True
  | (inr e, _, _) =>
      isinstance e "Exception" = false /\
      exists u w0 w1 o1, In u demos /\ snd u w0 = (inr e, w1, o1)
  end /\
  match run_demos demos w with
  | (inl _, _, _) => True
  | (inr e, _, _) =>
      isinstance e "Exception" = false /\
      exists u w0 w1 o1, In u demos /\ snd u w0 = (inr e, w1, o1)
  end.
Proof.
  assert (L : forall (l : list (@WorkUnit W)) k0 w0,
             match for_demos l k0 w0 with
             | (inl _, _, _) => True
             | (inr e, _, _) =>
                 isinstance e "Exception" = false /\
                 exists u w1 w2 o2, In u l /\ snd u w1 = (inr e, w2, o2)
             end).
  { induction l as [| u rest IH]; intros k0 w0; [exact I |].
    simpl. unfold bind. rewrite loop_body_eq.
    assert (Next : forall k1 w1 (o1 : list string),
               match
                 (let '(r, w2, o2) := for_demos rest k1 w1 in
                  (r, w2, (o1 ++ o2)%list))
               with
               | (inl _, _, _) => True
               | (inr e, _, _) =>
                   isinstance e "Exception" = false /\
                   exists u' w3 w4 o4,
                     In u' (u :: rest) /\ snd u' w3 = (inr e, w4, o4)
               end).
    { intros k1 w1 o1. specialize (IH k1 w1).
      destruct (for_demos rest k1 w1) as [[[k2 | e] w2] o2]; [exact I |].
      destruct IH as (Ne & u' & w3 & w4 & o4 & Hin & Hu).
      split; [exact Ne |]. exists u', w3, w4, o4. split; [now right | exact Hu]. }
    destruct (snd u w0) as [[[[|] | e] w1] o1] eqn:Eu.
    - apply Next.
    - apply Next.
    - destruct (isinstance e "Exception") eqn:Ee.
      + apply Next.
      + split; [exact Ee |]. exists u, w0, w1, o1. split; [now left | exact Eu]. }
  split; [apply L |].
  unfold run_demos, bind. specialize (L demos 0 w).
  destruct (for_demos demos 0 w) as [[[k1 | e] w1] o1]; [exact I | exact L].
Qed.

(** X19.  [main] lets out neither an [Exception] nor a
    [KeyboardInterrupt]: when [main] raises, the coroutine raised that
    exception and it is an instance of neither class. *)
Theorem main_lets_out_neither_exception_nor_interrupt
    (run_all_demos : M W unit) (w : W) :
  match main_of run_all_demos w with
  | (inl _, _, _) => True
  | (inr e, w1, o1) =>
      isinstance e "KeyboardInterrupt" = false /\
      isinstance e "Exception" = false /\
      run_all_demos w = (inr e, w1, o1)
  end.
Proof.
  unfold main_of, try_except.
  destruct (run_all_demos w) as [[[[] | e] w1] o1]; [exact I |].
  cbn [find_clause].
  destruct (isinstance e "KeyboardInterrupt") eqn:Ek; [exact I |].
  destruct (isinstance e "Exception") eqn:Ee; [exact I |].
  auto.
Qed.

End Isolation.

Section Agreement.

Context {W : Type} {X : Externals W}.

(** X20.  The four demos the scripts share do the same in both wherever
    [import anthropic] succeeds: they differ only in where the import
    stands, before the [try] in [claudeCodeDemo.py] and inside it in
    [simpleClaudeDemo.py]. *)
Theorem shared_demos_agree_when_the_import_succeeds (w : W) ui w1 oi :
  import_anthropic w = (inl ui, w1, oi) ->
  SimpleClaudeDemo.demo_hello_world w = ClaudeCodeDemo.demo_hello_world w /\
  SimpleClaudeDemo.demo_code_generation w =
    ClaudeCodeDemo.demo_code_generation w /\
  SimpleClaudeDemo.demo_code_review w = ClaudeCodeDemo.demo_code_review w /\
  SimpleClaudeDemo.demo_debugging_help w =
    ClaudeCodeDemo.demo_debugging_help w.
Proof.
  intros Ei.
  repeat split; open_demo;
    unfold SimpleClaudeDemo.sample_code, SimpleClaudeDemo.error_code,
      content_0_text, bind, try_except, print, ret, raise;
    cbn beta iota zeta; rewrite Ei;
    repeat first
      [ progress cbn beta iota zeta delta [find_clause fst snd]
      | match goal with
        | |- context [match AsyncAnthropic ?w0 with _ => _ end] =>
            destruct (AsyncAnthropic w0) as [[[? | ?] ?] ?]
        | |- context [match messages_create ?c ?m ?n ?l ?w0 with _ => _ end] =>
            destruct (messages_create c m n l w0) as [[[[| ? ?] | ?] ?] ?]
        | |- context [if isinstance ?e ?c then _ else _] =>
            destruct (isinstance e c)
        end ];
    rewrite <- ?app_assoc, ?app_nil_r; reflexivity.
Qed.

(** X21.  Ctrl-C during the first request of either script, from the
    top: the set-up done and the first demo started, the request raises a
    [KeyboardInterrupt]; [main] prints what was printed so far and then the
    interruption notice, and returns; no other demo is started and no
    summary is printed. *)
Theorem interrupt_in_the_first_request_ends_the_script :
  (forall (w : W) wi oi ws os b wc ocl ui w1 o1 c w2 oc e w3 om,
      ClaudeCodeDemo.install_requirements w = (inl tt, wi, oi) ->
      ClaudeCodeDemo.setup_api_key wi = (inl true, ws, os) ->
      ClaudeCodeDemo.check_claude_cli ws = (inl b, wc, ocl) ->
      import_anthropic wc = (inl ui, w1, o1) ->
      AsyncAnthropic w1 = (inl c, w2, oc) ->
      (forall messages,
          messages_create c model_name 1000 messages w2 = (inr e, w3, om)) ->
      isinstance e "KeyboardInterrupt" = true ->
      isinstance e "Exception" = false ->
      ClaudeCodeDemo.main w =
        (inl tt, w3,
         (["Claude API Demo Starting..."; str_mul "=" 50] ++ oi ++ os ++ ocl
          ++ [(nl ++ "=== Demo 1: Hello World ===")%string] ++ o1 ++ oc ++ om
          ++ [interrupted_line])%list)) /\
  (forall (w : W) ws os wi oi ui w1 o1 c w2 oc e w3 om,
      SimpleClaudeDemo.setup_api_key w = (inl true, ws, os) ->
      SimpleClaudeDemo.install_if_needed ws = (inl tt, wi, oi) ->
      import_anthropic wi = (inl ui, w1, o1) ->
      AsyncAnthropic w1 = (inl c, w2, oc) ->
      (forall messages,
          messages_create c model_name 1000 messages w2 = (inr e, w3, om)) ->
      isinstance e "KeyboardInterrupt" = true ->
      isinstance e "Exception" = false ->
      SimpleClaudeDemo.main w =
        (inl tt, w3,
         (["Simple Claude API Demo Starting..."; str_mul "=" 50] ++ os ++ oi
          ++ [(nl ++ "=== Demo 1: Hello World ===")%string] ++ o1 ++ oc ++ om
          ++ [interrupted_line])%list)).
Proof.
  split; intros.
  - unfold ClaudeCodeDemo.main, main_of, ClaudeCodeDemo.run_all_demos,
      run_demos, ClaudeCodeDemo.demos.
    cbn [for_demos]. unfold loop_body. cbn [fst snd]. open_demo.
    run_script. reflexivity.
  - unfold SimpleClaudeDemo.main, main_of, SimpleClaudeDemo.run_all_demos,
      run_demos, SimpleClaudeDemo.demos.
    cbn [for_demos]. unfold loop_body. cbn [fst snd]. open_demo.
    run_script. reflexivity.
Qed.

End Agreement.

(** ** The scripts' theorems at concrete runs *)

Lemma offline_uninterrupted : uninterrupted Offline.externals.
Proof. repeat split; intros; intros []; reflexivity. Qed.

(** The SDK missing, pip putting it in place. *)
Lemma install_requirements_runs_pip_only_on_import_error_witness :
  ClaudeCodeDemo.install_requirements (Scripted.mkWorld None false []) =
    (inl tt, Scripted.mkWorld None true [],
     ["Installing Anthropic SDK..."; "✓ Anthropic SDK installed"]).
Proof.
  destruct (install_requirements_runs_pip_only_on_import_error
              (Scripted.mkWorld None false []))
    as (_ & _ & Hpip & _).
  exact (Hpip Scripted.ModuleNotFoundError (Scripted.mkWorld None false []) []
           tt (Scripted.mkWorld None true []) []
           eq_refl eq_refl eq_refl).
Defined.

Lemma setup_api_key_is_true_iff_key_is_not_empty_witness :
  SimpleClaudeDemo.setup_api_key unreachable_world =
    (inl true, unreachable_world, ["✓ API key configured from .env file"]) /\
  ClaudeCodeDemo.setup_api_key (Scripted.mkWorld (Some EmptyString) true []) =
    (inl false, Scripted.mkWorld (Some EmptyString) true [],
     ["❌ No API key found in .env file";
      "Please set ANTHROPIC_API_KEY in ib_invoice_ops/.env"]).
Proof.
  split.
  - refine (proj2 (proj2
      (setup_api_key_is_true_iff_key_is_not_empty (X := Scripted.externals)
         unreachable_world tt unreachable_world [] (Some "sk-test")
         unreachable_world [] tt unreachable_world []
         eq_refl eq_refl _))).
    intros k [= <-] _. reflexivity.
  - refine (proj1 (proj2
      (setup_api_key_is_true_iff_key_is_not_empty (X := Scripted.externals)
         (Scripted.mkWorld (Some EmptyString) true []) tt
         (Scripted.mkWorld (Some EmptyString) true []) [] (Some EmptyString)
         (Scripted.mkWorld (Some EmptyString) true []) [] tt
         (Scripted.mkWorld (Some EmptyString) true []) []
         eq_refl eq_refl _))).
    intros k _ [=].
Defined.

Lemma check_claude_cli_is_optional_witness :
  ClaudeCodeDemo.check_claude_cli (W := unit) tt =
    (inl true, tt,
     ["ℹ️ Claude CLI not found (optional)";
      "Install with: npm install -g @anthropic-ai/claude-code"]) /\
  ClaudeCodeDemo.check_claude_cli keyless_world =
    (inl true, keyless_world, ["ℹ️ Claude CLI not found (optional)"]).
Proof.
  split.
  - exact (proj1 (proj2 (check_claude_cli_is_optional (W := unit) tt))
             Offline.FileNotFoundError tt [] eq_refl eq_refl).
  - exact (proj2 (proj2 (check_claude_cli_is_optional keyless_world))
             1%Z keyless_world [] eq_refl).
Defined.

Lemma simple_demos_never_raise_witness :
  Forall (fun u => never_raises (snd u))
    (SimpleClaudeDemo.demos (W := unit)).
Proof.
  exact (proj1 (simple_demos_never_raise (W := unit) offline_uninterrupted)).
Defined.

Lemma every_demo_starts_with_its_banner_witness :
  exists banner rest,
    snd (SimpleClaudeDemo.demo_hello_world unreachable_world) =
      banner :: rest /\
    startswith banner (nl ++ "=== Demo ") = true /\
    contains "Hello World" banner = true.
Proof.
  apply (every_demo_starts_with_its_banner (X := Scripted.externals)
           ("Hello World", SimpleClaudeDemo.demo_hello_world)
           unreachable_world).
  apply in_or_app. right. left. reflexivity.
Defined.

Lemma claude_demo_lets_import_error_out_witness :
  exists banner,
    ClaudeCodeDemo.demo_code_review (W := unit) tt =
      (inr Scripted.ModuleNotFoundError, tt, [banner]) /\
    (isinstance Scripted.ModuleNotFoundError "Exception" = true ->
     loop_body 2 ("Code Review", ClaudeCodeDemo.demo_code_review) tt =
       (inl 2, tt,
        [banner;
         failed_line "Code Review" Scripted.ModuleNotFoundError])).
Proof.
  apply (claude_demo_lets_import_error_out
           (X := Offline.externals) ("Code Review", ClaudeCodeDemo.demo_code_review)
           2 tt Scripted.ModuleNotFoundError tt []).
  - right. right. left. reflexivity.
  - reflexivity.
Defined.

Lemma empty_reply_is_a_handled_failure_witness :
  exists o,
    ClaudeCodeDemo.demo_code_generation
      (Scripted.mkWorld (Some "sk-test") true [inl []; inl ["unused"]]) =
      (inl false, Scripted.mkWorld (Some "sk-test") true [inl ["unused"]], o) /\
    (last o EmptyString = "❌ Error: list index out of range" \/
     last o EmptyString =
       "✓ Error handled: IndexError: list index out of range").
Proof.
  apply (empty_reply_is_a_handled_failure (X := Scripted.externals)
           ("Code Generation", ClaudeCodeDemo.demo_code_generation)
           (Scripted.mkWorld (Some "sk-test") true [inl []; inl ["unused"]])
           tt
           (Scripted.mkWorld (Some "sk-test") true [inl []; inl ["unused"]]) []
           tt
           (Scripted.mkWorld (Some "sk-test") true [inl []; inl ["unused"]]) []
           (Scripted.mkWorld (Some "sk-test") true [inl ["unused"]]) []).
  - right. left. reflexivity.
  - reflexivity.
  - reflexivity.
  - intros messages. reflexivity.
Defined.

Lemma service_error_is_a_handled_failure_witness :
  exists o,
    ClaudeCodeDemo.demo_error_handling unreachable_world =
      (inl false, unreachable_world, o) /\
    (last o EmptyString = "❌ Error: Connection error." \/
     last o EmptyString =
       "✓ Error handled: APIConnectionError: Connection error.").
Proof.
  apply (service_error_is_a_handled_failure (X := Scripted.externals)
           ("Error Handling", ClaudeCodeDemo.demo_error_handling)
           unreachable_world tt unreachable_world [] tt unreachable_world []
           (error "APIConnectionError" "Connection error.")
           unreachable_world []).
  - do 5 right. left. reflexivity.
  - reflexivity.
  - reflexivity.
  - intros messages. reflexivity.
  - reflexivity.
Defined.

Lemma no_demo_swallows_an_interrupt_witness :
  exists banner,
    SimpleClaudeDemo.demo_debugging_help
      (Scripted.mkWorld (Some "sk-test") true [inr KeyboardInterrupt]) =
      (inr KeyboardInterrupt, unreachable_world, [banner]).
Proof.
  apply (no_demo_swallows_an_interrupt (X := Scripted.externals)
           ("Debugging Help", SimpleClaudeDemo.demo_debugging_help)
           (Scripted.mkWorld (Some "sk-test") true [inr KeyboardInterrupt])
           tt
           (Scripted.mkWorld (Some "sk-test") true [inr KeyboardInterrupt]) []
           tt
           (Scripted.mkWorld (Some "sk-test") true [inr KeyboardInterrupt]) []
           KeyboardInterrupt unreachable_world []).
  - apply in_or_app. right. do 3 right. left. reflexivity.
  - reflexivity.
  - reflexivity.
  - intros messages. reflexivity.
  - reflexivity.
Defined.

Lemma without_the_sdk_every_demo_fails_witness :
  (exists w1 o1,
      run_demos (ClaudeCodeDemo.demos (W := unit)) tt =
        (inl tt, w1,
         (o1 ++ [separator_line; "Completed 0/6 demos successfully!"])%list)) /\
  (exists w1 o1,
      run_demos (SimpleClaudeDemo.demos (W := unit)) tt =
        (inl tt, w1,
         (o1 ++ [separator_line; "Completed 0/4 demos successfully!"])%list)).
Proof.
  apply (without_the_sdk_every_demo_fails (W := unit) tt).
  intros []. exists Scripted.ModuleNotFoundError, tt, [].
  split; reflexivity.
Defined.

Lemma multi_turn_sends_the_history_witness :
  ClaudeCodeDemo.demo_multi_turn
    (Scripted.mkWorld (Some "sk-test") true
       [inl ["class Calculator:"]; inl ["def add(self, a, b):"]]) =
    (inl true, unreachable_world,
     [nl ++ "=== Demo 5: Multi-turn Conversation ===";
      nl ++ "Turn 1:";
      "class Calculator:";
      nl ++ "Turn 2:";
      "def add(self, a, b):";
      nl ++ "Completed 2 turns"]).
Proof.
  exact (proj1
    (multi_turn_sends_the_history (X := Scripted.externals)
       (Scripted.mkWorld (Some "sk-test") true
          [inl ["class Calculator:"]; inl ["def add(self, a, b):"]])
       tt
       (Scripted.mkWorld (Some "sk-test") true
          [inl ["class Calculator:"]; inl ["def add(self, a, b):"]]) []
       tt
       (Scripted.mkWorld (Some "sk-test") true
          [inl ["class Calculator:"]; inl ["def add(self, a, b):"]]) []
       "class Calculator:" []
       (Scripted.mkWorld (Some "sk-test") true [inl ["def add(self, a, b):"]])
       [] eq_refl eq_refl eq_refl)
    "def add(self, a, b):" [] unreachable_world [] eq_refl).
Defined.

Lemma shorten_300_keeps_the_first_300_witness :
  ClaudeCodeDemo.shorten_300 "class Calculator:" = "class Calculator:" /\
  String.length (ClaudeCodeDemo.shorten_300 (str_mul "ab" 200)) = 303.
Proof.
  split.
  - apply (proj1 (proj2 (proj2
      (shorten_300_keeps_the_first_300 "class Calculator:")))).
    simpl. lia.
  - apply (proj2 (proj2 (proj2
      (shorten_300_keeps_the_first_300 (str_mul "ab" 200))))).
    vm_compute. lia.
Defined.

Lemma error_handling_demo_prints_a_preview_witness :
  ClaudeCodeDemo.demo_error_handling
    (Scripted.mkWorld (Some "sk-test") true [inl ["Use try."]]) =
    (inl true, unreachable_world,
     [nl ++ "=== Demo 6: Error Handling ===";
      "Success!";
      "Use try...."]).
Proof.
  exact (proj1
    (error_handling_demo_prints_a_preview (X := Scripted.externals)
       (Scripted.mkWorld (Some "sk-test") true [inl ["Use try."]])
       tt (Scripted.mkWorld (Some "sk-test") true [inl ["Use try."]]) []
       tt (Scripted.mkWorld (Some "sk-test") true [inl ["Use try."]]) []
       "Use try." [] unreachable_world []
       eq_refl eq_refl eq_refl)).
Defined.

Lemma failing_pip_ends_the_script_witness :
  ClaudeCodeDemo.main (X := broken_pip) tt =
    (inl tt, tt,
     ["Claude API Demo Starting...";
      str_mul "=" 50;
      "Installing Anthropic SDK...";
      nl ++ "Demo failed: Command returned non-zero exit status 1."]).
Proof.
  exact (proj1 (failing_pip_ends_the_script (X := broken_pip))
           tt Scripted.ModuleNotFoundError tt []
           (error "CalledProcessError"
              "Command returned non-zero exit status 1.") tt []
           eq_refl eq_refl eq_refl eq_refl eq_refl).
Defined.

Lemma claude_run_all_demos_summary_witness :
  exists k w1 o1,
    k <= 6 /\
    ClaudeCodeDemo.main (W := unit) tt =
      (inl tt, w1, (o1 ++ [separator_line; summary_line k 6])%list).
Proof.
  exact (claude_run_all_demos_summary (W := unit) tt
           tt ["Installing Anthropic SDK..."; "✓ Anthropic SDK installed"]
           tt ["✓ API key configured from .env file"]
           true tt
           ["ℹ️ Claude CLI not found (optional)";
            "Install with: npm install -g @anthropic-ai/claude-code"]
           offline_uninterrupted eq_refl eq_refl eq_refl).
Defined.

Lemma simple_run_all_demos_summary_witness :
  exists k w1 o1,
    k <= 4 /\
    SimpleClaudeDemo.main (W := unit) tt =
      (inl tt, w1, (o1 ++ [separator_line; summary_line k 4])%list).
Proof.
  exact (simple_run_all_demos_summary (W := unit) tt
           tt ["✓ API key configured from .env file"]
           tt ["Installing Anthropic SDK..."; "✓ Anthropic SDK installed"]
           offline_uninterrupted eq_refl eq_refl).
Defined.

Lemma shared_demos_agree_when_the_import_succeeds_witness :
  SimpleClaudeDemo.demo_code_review interrupted_world =
  ClaudeCodeDemo.demo_code_review interrupted_world.
Proof.
  exact (proj1 (proj2 (proj2
    (shared_demos_agree_when_the_import_succeeds
       (X := Scripted.externals) interrupted_world tt interrupted_world []
       eq_refl)))).
Defined.

Lemma interrupt_in_the_first_request_ends_the_script_witness :
  ClaudeCodeDemo.main
    (Scripted.mkWorld (Some "sk-test") true [inr KeyboardInterrupt]) =
    (inl tt, unreachable_world,
     ["Claude API Demo Starting...";
      str_mul "=" 50;
      "✓ Anthropic SDK available";
      "✓ API key configured from .env file";
      "ℹ️ Claude CLI not found (optional)";
      nl ++ "=== Demo 1: Hello World ===";
      interrupted_line]).
Proof.
  exact (proj1
    (interrupt_in_the_first_request_ends_the_script (X := Scripted.externals))
    (Scripted.mkWorld (Some "sk-test") true [inr KeyboardInterrupt])
    (Scripted.mkWorld (Some "sk-test") true [inr KeyboardInterrupt])
    ["✓ Anthropic SDK available"]
    (Scripted.mkWorld (Some "sk-test") true [inr KeyboardInterrupt])
    ["✓ API key configured from .env file"]
    true
    (Scripted.mkWorld (Some "sk-test") true [inr KeyboardInterrupt])
    ["ℹ️ Claude CLI not found (optional)"]
    tt (Scripted.mkWorld (Some "sk-test") true [inr KeyboardInterrupt]) []
    tt (Scripted.mkWorld (Some "sk-test") true [inr KeyboardInterrupt]) []
    KeyboardInterrupt unreachable_world []
    eq_refl eq_refl eq_refl eq_refl eq_refl (fun _ => eq_refl)
    eq_refl eq_refl).
Defined.
